(** * Blogicum: the view layer of the blog application

    A shallow embedding of [blogicum/blog/views.py] and
    [blogicum/blog/forms.py].  The database is a record of finite maps from
    primary keys to rows; a view is a function from the database, the clock
    and the request to a response (and, for the views that write, the next
    database).  The parts of the web framework the views rely on (object
    lookup, query sets, the paginator, the generic class-based views of
    Django 3.2 and the login mixin) are written out next to the code that
    calls them; templates are taken to render.  The profile edit view and
    the static pages of [blogicum/pages/views.py] take no part in the
    statements below and are left out. *)

From Stdlib Require Import ZArith Lia.
From stdpp Require Import base option list gmap strings sorting.

Local Open Scope nat_scope.

(** ** Data layer

    The entities are declared in [blog/models.py], which is not among the
    sources; their fields are those the views and forms use. *)

(** Modelled from the spec: [User] has [username], [first_name],
    [last_name] and [email]. *)
Record User := {
  username : string;
  first_name : string;
  last_name : string;
  email : string
}.

(** Modelled from the spec: [Category] has [slug] and [is_published]. *)
Record Category := {
  slug : string;
  category_is_published : bool
}.

(** Modelled from the spec: the fields of [Post].  [category], [location]
    and [author] hold the primary key of the row they point to; [pub_date]
    is a point in time as a number of seconds. *)
Record Post := {
  title : string;
  post_text : string;
  pub_date : Z;
  category : nat;
  location : option nat;
  image : string;
  author : nat;
  is_published : bool
}.

(** Modelled from the spec: [Comment] has [text], [author] and [post]. *)
Record Comment := {
  comment_text : string;
  comment_author : nat;
  comment_post : nat
}.

Record DB := {
  users : gmap nat User;
  categories : gmap nat Category;
  posts : gmap nat Post;
  comments : gmap nat Comment
}.

(** ** Exceptions and responses *)

(** The exceptions a view can end with; [InvalidPageRaised] is an
    [InvalidPage] of the paginator that nothing caught. *)
Inductive exn :=
  | Http404
  | MultipleObjectsReturned
  | RelatedObjectDoesNotExist
  | ImproperlyConfigured
  | InvalidPageRaised.

Inductive outcome (A : Type) :=
  | Return (a : A)
  | Raise (e : exn).
Arguments Return {A} a.
Arguments Raise {A} e.

(** A raised exception skips the rest of the computation. *)
Global Instance outcome_bind : MBind outcome := λ A B k m,
  match m with
  | Return a => k a
  | Raise e => Raise e
  end.

(** Named routes of the [blog] application and the login page. *)
Inductive url :=
  | blog_index
  | blog_profile (name : string)
  | blog_post_detail (post_id : nat)
  | absolute_url (target : string)
  | login_url.

(** The two verbs the pages and forms of the site are requested with. *)
Inductive http_method := GET | POST.

(** The [page] parameter of the query string, by what [int()] makes of it:
    absent or empty, a text that [int()] converts to [n], the word [last],
    or any other text. *)
Inductive page_arg :=
  | page_absent
  | page_int (n : Z)
  | page_last
  | page_other.

(** [user] is [None] for the anonymous user; [POST_data] is the submitted
    form, field name to text. *)
Record HttpRequest := {
  method : http_method;
  user : option nat;
  GET_page : page_arg;
  POST_data : gmap string string
}.

(** ** Query sets *)

(** A row of a [Post] query set: the primary key, the fields, and the
    [comment_count] annotation when the query set carries one. *)
Record PostRow := {
  pk : nat;
  fields : Post;
  comment_count : option nat
}.

Definition Post_objects (db : DB) : list PostRow :=
  (λ kp, {| pk := kp.1; fields := kp.2; comment_count := None |})
    <$> map_to_list (posts db).

Definition newer_first (a b : PostRow) : Prop :=
  (pub_date (fields b) ≤ pub_date (fields a))%Z.

Global Instance newer_first_dec a b : Decision (newer_first a b).
Proof. unfold newer_first. apply _. Defined.

(** [order_by('-pub_date')]. The order among rows of equal date is the
    database's choice; here it is the one the merge sort leaves. *)
Definition order_by_pub_date_desc (qs : list PostRow) : list PostRow :=
  merge_sort newer_first qs.

(** [Count('comments')] for the post with key [post_id]. *)
Definition Count_comments (db : DB) (post_id : nat) : nat :=
  length (filter (λ kc, comment_post kc.2 = post_id) (map_to_list (comments db))).

Definition annotate_comment_count (db : DB) (qs : list PostRow) : list PostRow :=
  (λ r, {| pk := pk r; fields := fields r;
           comment_count := Some (Count_comments db (pk r)) |}) <$> qs.

(** [category__is_published=True] joins the category table: a post whose
    category row is missing does not match. *)
Definition category__is_published (db : DB) (p : Post) : bool :=
  match categories db !! category p with
  | Some c => category_is_published c
  | None => false
  end.

Definition category__slug (db : DB) (p : Post) : option string :=
  slug <$> categories db !! category p.

(** [QuerySet.get()] on the rows that matched. *)
Definition get {A} (matches : list A) : outcome A :=
  match matches with
  | [] => Raise Http404
  | [x] => Return x
  | _ => Raise MultipleObjectsReturned
  end.

(** [get_object_or_404(Model, pk=...)]: a primary key matches at most one
    row. *)
Definition get_object_or_404 {A} (table : gmap nat A) (key : nat) : outcome A :=
  match table !! key with
  | Some x => Return x
  | None => Raise Http404
  end.

Definition get_user_by_username (db : DB) (name : string) : outcome (nat * User) :=
  get (filter (λ ku, username ku.2 = name) (map_to_list (users db))).

Definition get_published_category (db : DB) (category_slug : string)
  : outcome (nat * Category) :=
  get (filter (λ kc, slug kc.2 = category_slug ∧ category_is_published kc.2 = true)
         (map_to_list (categories db))).

(** ** Paginator *)

Definition POSTS_PER_PAGE : nat := 10.

Inductive InvalidPage := PageNotAnInteger | EmptyPage.

Record Page := {
  object_list : list PostRow;
  number : Z
}.

Section Paginator.
(** [Paginator(object_list, per_page)] with [orphans=0] and
    [allow_empty_first_page=True]. *)
Variable paginator_list : list PostRow.
Variable per_page : nat.

Definition count : nat := length paginator_list.

Definition num_pages : nat :=
  let hits := Nat.max 1 count in
  (hits + per_page - 1) / per_page.

Definition validate_number (number : page_arg) : InvalidPage + Z :=
  match number with
  | page_int n =>
      if (n <? 1)%Z then inl EmptyPage
      else if (Z.of_nat num_pages <? n)%Z then inl EmptyPage
      else inr n
  | _ => inl PageNotAnInteger
  end.

Definition page (number : page_arg) : InvalidPage + Page :=
  match validate_number number with
  | inl e => inl e
  | inr n =>
      let bottom := Z.to_nat (n - 1) * per_page in
      let top := bottom + per_page in
      let top := if decide (count ≤ top) then count else top in
      inr {| object_list := take (top - bottom) (drop bottom paginator_list);
             number := n |}
  end.

Definition get_page (number : page_arg) : InvalidPage + Page :=
  match validate_number number with
  | inr n => page (page_int n)
  | inl PageNotAnInteger => page (page_int 1)
  | inl EmptyPage => page (page_int (Z.of_nat num_pages))
  end.

(** [MultipleObjectMixin.paginate_queryset]: the page the list views put
    in their context, or [Http404]. *)
Definition paginate_queryset (page_kwarg : page_arg) : outcome Page :=
  number ← match page_kwarg with
           | page_absent => Return (page_int 1)
           | page_int n => Return (page_int n)
           | page_last => Return (page_int (Z.of_nat num_pages))
           | page_other => Raise Http404
           end;
  match page number with
  | inr pg => Return pg
  | inl _ => Raise Http404
  end.
End Paginator.

(** ** Responses *)

(** What a template is rendered with. *)
Inductive context :=
  | profile_html (profile : nat) (page_obj : Page) (viewer : option nat)
  | index_html (page_obj : Page)
  | category_html (category : nat) (page_obj : Page)
  | detail_html (post : nat) (post_comments : list (nat * Comment))
  | form_html (template_name : string) (instance : option nat) (with_errors : bool).

Inductive HttpResponse :=
  | render (ctx : context)
  | HttpResponseRedirect (redirect_to : url)
  | HttpResponseNotFound
  | HttpResponseNotAllowed
  | HttpResponseServerError.

Definition status_code (r : HttpResponse) : nat :=
  match r with
  | render _ => 200
  | HttpResponseRedirect _ => 302
  | HttpResponseNotFound => 404
  | HttpResponseNotAllowed => 405
  | HttpResponseServerError => 500
  end.

Definition redirect (to : url) : HttpResponse := HttpResponseRedirect to.

(** The framework turns [Http404] into the 404 page and any other uncaught
    exception into the 500 page. *)
Definition exception_response (e : exn) : HttpResponse :=
  match e with
  | Http404 => HttpResponseNotFound
  | _ => HttpResponseServerError
  end.

Definition respond (o : outcome HttpResponse) : HttpResponse :=
  match o with
  | Return r => r
  | Raise e => exception_response e
  end.

(** A view that writes leaves the database as it found it when it raises
    before saving. *)
Definition respond_in (db : DB) (o : outcome (HttpResponse * DB)) : HttpResponse * DB :=
  match o with
  | Return r => r
  | Raise e => (exception_response e, db)
  end.

(** [View.dispatch] of a view that only defines [get]. *)
Definition View_dispatch_get (request : HttpRequest) (get_handler : outcome HttpResponse)
  : outcome HttpResponse :=
  match method request with
  | GET => get_handler
  | POST => Return HttpResponseNotAllowed
  end.

(** [LoginRequiredMixin.dispatch]: an anonymous request is sent to the
    login page, any other goes on to the next [dispatch] in the MRO. *)
Definition LoginRequiredMixin_dispatch {R} (request : HttpRequest)
    (no_permission : R) (super_dispatch : nat → R) : R :=
  match user request with
  | None => no_permission
  | Some u => super_dispatch u
  end.

(** ** Read-only views *)

Definition user_posts (db : DB) (profile : nat) : list PostRow :=
  filter (λ r, author (fields r) = profile) (Post_objects db).

Definition UserDetailView_get_context_data (db : DB) (request : HttpRequest)
    (name : string) : outcome context :=
  profile ← get_user_by_username db name;
  let post_list :=
    annotate_comment_count db (order_by_pub_date_desc (user_posts db profile.1)) in
  match get_page post_list POSTS_PER_PAGE (GET_page request) with
  | inr page_obj => Return (profile_html profile.1 page_obj (user request))
  | inl _ => Raise InvalidPageRaised
  end.

Definition UserDetailView (db : DB) (request : HttpRequest) (name : string)
  : HttpResponse :=
  respond (View_dispatch_get request (
    _ ← get_user_by_username db name;
    ctx ← UserDetailView_get_context_data db request name;
    Return (render ctx))).

(** [today] is the value [timezone.now()] had when the class body of
    [IndexListView] ran; the query set is built there, once.
    [select_related] changes how rows are fetched, not which. *)
Definition IndexListView_queryset (today : Z) (db : DB) : list PostRow :=
  annotate_comment_count db (order_by_pub_date_desc (
    filter (λ r, (pub_date (fields r) ≤ today)%Z
                 ∧ is_published (fields r) = true
                 ∧ category__is_published db (fields r) = true)
      (Post_objects db))).

Definition IndexListView (today : Z) (db : DB) (request : HttpRequest) : HttpResponse :=
  respond (View_dispatch_get request (
    page_obj ← paginate_queryset (IndexListView_queryset today db) POSTS_PER_PAGE
                  (GET_page request);
    Return (render (index_html page_obj)))).

Definition CategoryPostsListView_get_queryset (db : DB) (now : Z)
    (category_slug : string) : list PostRow :=
  let today := now in
  order_by_pub_date_desc (
    filter (λ r, category__slug db (fields r) = Some category_slug
                 ∧ is_published (fields r) = true
                 ∧ (pub_date (fields r) ≤ today)%Z)
      (Post_objects db)).

Definition CategoryPostsListView_get_context_data (db : DB) (request : HttpRequest)
    (category_slug : string) (queryset : list PostRow) : outcome context :=
  page_obj ← paginate_queryset queryset POSTS_PER_PAGE (GET_page request);
  category ← get_published_category db category_slug;
  Return (category_html category.1 page_obj).

Definition CategoryPostsListView (db : DB) (now : Z) (request : HttpRequest)
    (category_slug : string) : HttpResponse :=
  respond (View_dispatch_get request (
    let queryset := CategoryPostsListView_get_queryset db now category_slug in
    ctx ← CategoryPostsListView_get_context_data db request category_slug queryset;
    Return (render ctx))).

Definition post_comments_of (db : DB) (post_id : nat) : list (nat * Comment) :=
  filter (λ kc, comment_post kc.2 = post_id) (map_to_list (comments db)).

(** [DetailView.dispatch] for [PostDetailView]: [get_object] by
    [pk_url_kwarg], then [get_context_data]. *)
Definition PostDetailView_super_dispatch (db : DB) (request : HttpRequest)
    (post_id : nat) : outcome HttpResponse :=
  View_dispatch_get request (
    _ ← get_object_or_404 (posts db) post_id;
    Return (render (detail_html post_id (post_comments_of db post_id)))).

(** [post.category] fetches the related row. *)
Definition related_category (db : DB) (p : Post) : outcome Category :=
  match categories db !! category p with
  | Some c => Return c
  | None => Raise RelatedObjectDoesNotExist
  end.

(** The condition of the [if] in [PostDetailView.dispatch]; [or] evaluates
    its operands left to right and stops at the first true one. *)
Definition PostDetailView_hidden (db : DB) (today : Z) (post : Post) : outcome bool :=
  if negb (is_published post) then Return true
  else
    c ← related_category db post;
    if negb (category_is_published c) then Return true
    else Return (negb (bool_decide (pub_date post ≤ today)%Z)).

Definition PostDetailView_dispatch (db : DB) (now : Z) (request : HttpRequest)
    (post_id : nat) : outcome HttpResponse :=
  post ← get_object_or_404 (posts db) post_id;
  let today := now in
  hidden ← PostDetailView_hidden db today post;
  if hidden : bool then
    if decide (user request = Some (author post))
    then PostDetailView_super_dispatch db request post_id
    else Return HttpResponseNotFound
  else PostDetailView_super_dispatch db request post_id.

Definition PostDetailView (db : DB) (now : Z) (request : HttpRequest) (post_id : nat)
  : HttpResponse :=
  respond (PostDetailView_dispatch db now request post_id).

(** ** Forms *)

Definition PostForm_fields : list string :=
  ["title"; "text"; "pub_date"; "category"; "location"; "image"].

Definition CommentForm_fields : list string := ["text"].

(** A bound form reads the submission at its own [Meta.fields] and nowhere
    else. *)
Definition bound_data (form_fields : list string) (data : gmap string string)
  : list (option string) :=
  (λ f, data !! f) <$> form_fields.

Record PostFormData := {
  cleaned_title : string;
  cleaned_text : string;
  cleaned_pub_date : Z;
  cleaned_category : nat;
  cleaned_location : option nat;
  cleaned_image : string
}.

(** What the views take from [blog/models.py]: the validation the model
    fields give the two model forms (applied to the values of the form's
    fields, in the order of [Meta.fields]; [None] when the form has
    errors), the default of [Post.is_published], and
    [Post.get_absolute_url] when the model defines it.  [PostForm_clean]
    is the form of a new post; [PostForm_clean_instance] is the form
    [UpdateView] binds to the stored post of the given key, whose cleaned
    values may depend on that row (a file field left empty keeps the
    stored file). *)
Record Models := {
  PostForm_clean : DB → list (option string) → option PostFormData;
  PostForm_clean_instance : DB → nat → list (option string) → option PostFormData;
  CommentForm_clean : list (option string) → option string;
  Post_is_published_default : bool;
  Post_get_absolute_url : option (nat → url)
}.

Definition set_posts (db : DB) (t : gmap nat Post) : DB :=
  {| users := users db; categories := categories db; posts := t;
     comments := comments db |}.

Definition set_comments (db : DB) (t : gmap nat Comment) : DB :=
  {| users := users db; categories := categories db; posts := posts db;
     comments := t |}.

(** [form.save()] of a [PostForm] bound to an existing post. *)
Definition PostForm_save_instance (c : PostFormData) (p : Post) : Post :=
  {| title := cleaned_title c; post_text := cleaned_text c;
     pub_date := cleaned_pub_date c; category := cleaned_category c;
     location := cleaned_location c; image := cleaned_image c;
     author := author p; is_published := is_published p |}.

(** Modelled from the spec: what [post.delete()] removes.  The relation
    from [Comment] to [Post] is declared in [blog/models.py], which is not
    among the sources; the comments of a deleted post are deleted with it,
    the cascade the ORM performs implicitly. *)
Definition delete_post (db : DB) (post_id : nat) : DB :=
  {| users := users db; categories := categories db;
     posts := delete post_id (posts db);
     comments := filter (λ kc, comment_post kc.2 ≠ post_id) (comments db) |}.

Section FormViews.
Variable M : Models.

(** *** Posts *)

Definition PostCreateView_form_valid (db : DB) (u : nat) (c : PostFormData)
  : HttpResponse * DB :=
  let instance :=
    {| title := cleaned_title c; post_text := cleaned_text c;
       pub_date := cleaned_pub_date c; category := cleaned_category c;
       location := cleaned_location c; image := cleaned_image c;
       author := u; is_published := Post_is_published_default M |} in
  let db' := set_posts db (<[fresh (dom (posts db)) := instance]> (posts db)) in
  match users db !! u with
  | Some usr => (redirect (blog_profile (username usr)), db')
  | None => (HttpResponseServerError, db')
  end.

Definition PostCreateView (db : DB) (request : HttpRequest) : HttpResponse * DB :=
  LoginRequiredMixin_dispatch request (redirect login_url, db) (λ u,
    match method request with
    | GET => (render (form_html "blog/create.html" None false), db)
    | POST =>
        match PostForm_clean M db (bound_data PostForm_fields (POST_data request)) with
        | Some c => PostCreateView_form_valid db u c
        | None => (render (form_html "blog/create.html" None true), db)
        end
    end).

(** [PostDispatchMixin.dispatch]; [super_dispatch] is the [dispatch] of
    the class after it in the MRO. *)
Definition PostDispatchMixin_dispatch (db : DB) (request : HttpRequest)
    (post_id : nat) (super_dispatch : HttpResponse * DB) : HttpResponse * DB :=
  respond_in db (
    instance ← get_object_or_404 (posts db) post_id;
    if decide (Some (author instance) ≠ user request)
    then Return (redirect (blog_post_detail post_id), db)
    else Return super_dispatch).

Definition PostUpdateView_get_success_url (post_id : nat) : HttpResponse :=
  match Post_get_absolute_url M with
  | Some to => redirect (to post_id)
  | None => exception_response ImproperlyConfigured
  end.

(** [UpdateView.get] and [UpdateView.post] for [PostUpdateView]. *)
Definition PostUpdateView_handler (db : DB) (request : HttpRequest) (post_id : nat)
  : HttpResponse * DB :=
  respond_in db (
    object ← get_object_or_404 (posts db) post_id;
    match method request with
    | GET => Return (render (form_html "blog/create.html" (Some post_id) false), db)
    | POST =>
        match PostForm_clean_instance M db post_id
                (bound_data PostForm_fields (POST_data request)) with
        | Some c =>
            let db' :=
              set_posts db (<[post_id := PostForm_save_instance c object]> (posts db)) in
            Return (PostUpdateView_get_success_url post_id, db')
        | None =>
            Return (render (form_html "blog/create.html" (Some post_id) true), db)
        end
    end).

(** MRO: [PostMixin], [PostDispatchMixin], [LoginRequiredMixin],
    [UpdateView]. *)
Definition PostUpdateView (db : DB) (request : HttpRequest) (post_id : nat)
  : HttpResponse * DB :=
  PostDispatchMixin_dispatch db request post_id (
    LoginRequiredMixin_dispatch request (redirect login_url, db) (λ _,
      PostUpdateView_handler db request post_id)).

(** [DeleteView.get] (with [PostDeleteView.get_context_data]) and
    [DeleteView.post]. *)
Definition PostDeleteView_handler (db : DB) (request : HttpRequest) (post_id : nat)
  : HttpResponse * DB :=
  respond_in db (
    object ← get_object_or_404 (posts db) post_id;
    match method request with
    | GET =>
        _ ← get_object_or_404 (posts db) post_id;
        Return (render (form_html "blog/create.html" (Some post_id) false), db)
    | POST => Return (redirect blog_index, delete_post db post_id)
    end).

Definition PostDeleteView (db : DB) (request : HttpRequest) (post_id : nat)
  : HttpResponse * DB :=
  PostDispatchMixin_dispatch db request post_id (
    LoginRequiredMixin_dispatch request (redirect login_url, db) (λ _,
      PostDeleteView_handler db request post_id)).

(** *** Comments *)

(** [CommentCreateView.form_valid] followed by the save of
    [CreateView.form_valid] and the redirect to [get_success_url]. *)
Definition CommentCreateView_form_valid (db : DB) (u : nat) (post_object : nat)
    (cleaned : string) : HttpResponse * DB :=
  let instance :=
    {| comment_text := cleaned; comment_author := u; comment_post := post_object |} in
  (redirect (blog_post_detail post_object),
   set_comments db (<[fresh (dom (comments db)) := instance]> (comments db))).

Definition CommentCreateView (db : DB) (request : HttpRequest) (post_id : nat)
  : HttpResponse * DB :=
  respond_in db (
    _ ← get_object_or_404 (posts db) post_id;
    let post_object := post_id in
    Return (LoginRequiredMixin_dispatch request (redirect login_url, db) (λ u,
      match method request with
      | GET => (render (form_html "blog/comment_form.html" None false), db)
      | POST =>
          match CommentForm_clean M (bound_data CommentForm_fields (POST_data request)) with
          | Some cleaned => CommentCreateView_form_valid db u post_object cleaned
          | None => (render (form_html "blog/comment_form.html" None true), db)
          end
      end))).

(** [CommentMixin.dispatch]. *)
Definition CommentMixin_dispatch (db : DB) (request : HttpRequest) (comment_id : nat)
    (super_dispatch : HttpResponse * DB) : HttpResponse * DB :=
  respond_in db (
    instance ← get_object_or_404 (comments db) comment_id;
    if decide (Some (comment_author instance) ≠ user request)
    then Return (redirect (blog_post_detail (comment_post instance)), db)
    else Return super_dispatch).

(** [CommentUpdateView.get_context_data] puts a fresh [CommentForm] of
    the stored comment in the context, also after a submission with
    errors. *)
Definition CommentUpdateView_handler (db : DB) (request : HttpRequest)
    (comment_id : nat) : HttpResponse * DB :=
  respond_in db (
    object ← get_object_or_404 (comments db) comment_id;
    match method request with
    | GET =>
        _ ← get_object_or_404 (comments db) comment_id;
        Return (render (form_html "blog/comment.html" (Some comment_id) false), db)
    | POST =>
        match CommentForm_clean M (bound_data CommentForm_fields (POST_data request)) with
        | Some cleaned =>
            let saved :=
              {| comment_text := cleaned; comment_author := comment_author object;
                 comment_post := comment_post object |} in
            Return (redirect (blog_post_detail (comment_post saved)),
                    set_comments db (<[comment_id := saved]> (comments db)))
        | None =>
            _ ← get_object_or_404 (comments db) comment_id;
            Return (render (form_html "blog/comment.html" (Some comment_id) false), db)
        end
    end).

(** MRO: [LoginRequiredMixin], [CommentMixin], [UpdateView]. *)
Definition CommentUpdateView (db : DB) (request : HttpRequest) (comment_id : nat)
  : HttpResponse * DB :=
  LoginRequiredMixin_dispatch request (redirect login_url, db) (λ _,
    CommentMixin_dispatch db request comment_id (
      CommentUpdateView_handler db request comment_id)).

Definition CommentDeleteView_handler (db : DB) (request : HttpRequest)
    (comment_id : nat) : HttpResponse * DB :=
  respond_in db (
    object ← get_object_or_404 (comments db) comment_id;
    match method request with
    | GET => Return (render (form_html "blog/comment.html" (Some comment_id) false), db)
    | POST =>
        Return (redirect (blog_post_detail (comment_post object)),
                set_comments db (delete comment_id (comments db)))
    end).

Definition CommentDeleteView (db : DB) (request : HttpRequest) (comment_id : nat)
  : HttpResponse * DB :=
  LoginRequiredMixin_dispatch request (redirect login_url, db) (λ _,
    CommentMixin_dispatch db request comment_id (
      CommentDeleteView_handler db request comment_id)).
End FormViews.

(** ** Profile edit *)

(** The fields of the form [UpdateView] builds for [UserEditUpdateView]. *)
Definition UserEditUpdateView_fields : list string :=
  ["username"; "first_name"; "last_name"; "email"].

Definition set_users (db : DB) (t : gmap nat User) : DB :=
  {| users := t; categories := categories db; posts := posts db;
     comments := comments db |}.

Section ProfileEdit.
(** The validation the fields of [User] give the generated form, for the
    user row [instance] being edited; [None] when the form has errors.
    The model is declared outside the sources. *)
Variable UserForm_clean : DB → nat → list (option string) → option User.

(** [UserEditUpdateView.get_success_url]: [request.user] was loaded from
    the database when the login mixin looked at it, before any save. *)
Definition UserEditUpdateView_get_success_url (db : DB) (u : nat) : HttpResponse :=
  match users db !! u with
  | Some usr => redirect (blog_profile (username usr))
  | None => HttpResponseServerError
  end.

(** MRO: [UserMixin], [LoginRequiredMixin], [UpdateView];
    [get_object] looks the user of the URL up, not the requester. *)
Definition UserEditUpdateView (db : DB) (request : HttpRequest) (name : string)
  : HttpResponse * DB :=
  LoginRequiredMixin_dispatch request (redirect login_url, db) (λ u,
    respond_in db (
      object ← get_user_by_username db name;
      match method request with
      | GET => Return (render (form_html "blog/user.html" (Some object.1) false), db)
      | POST =>
          match UserForm_clean db object.1
                  (bound_data UserEditUpdateView_fields (POST_data request)) with
          | Some cleaned =>
              let db' := set_users db (<[object.1 := cleaned]> (users db)) in
              Return (UserEditUpdateView_get_success_url db u, db')
          | None =>
              Return (render (form_html "blog/user.html" (Some object.1) true), db)
          end
      end)).
End ProfileEdit.

(** ** Vocabulary of the statements *)

(** The visibility invariant of a post at the moment [now]. *)
Definition visible (db : DB) (now : Z) (p : Post) : Prop :=
  is_published p = true
  ∧ category__is_published db p = true
  ∧ (pub_date p ≤ now)%Z.

(** The rows a listing response shows; none when the response is not a
    listing. *)
Definition listed (r : HttpResponse) : list PostRow :=
  match r with
  | render (profile_html _ page_obj _) => object_list page_obj
  | render (index_html page_obj) => object_list page_obj
  | render (category_html _ page_obj) => object_list page_obj
  | _ => []
  end.

(** The same request for another page. *)
Definition with_page (request : HttpRequest) (n : Z) : HttpRequest :=
  {| method := method request; user := user request;
     GET_page := page_int n; POST_data := POST_data request |}.

(** The same request with another submission. *)
Definition with_POST_data (request : HttpRequest) (data : gmap string string)
  : HttpRequest :=
  {| method := method request; user := user request;
     GET_page := GET_page request; POST_data := data |}.

(** The slice of [l] that is page [n + 1] when pages hold [per_page] rows. *)
Definition page_slice (l : list PostRow) (per_page n : nat) : list PostRow :=
  take per_page (drop (n * per_page) l).

(** No two users share a username. *)
Definition usernames_unique (db : DB) : Prop :=
  NoDup ((λ ku, username ku.2) <$> map_to_list (users db)).

(** The rows of the pages 1 to [k] of a listing, one page after the other;
    [view n] is the response to the request for page [n]. *)
Definition pages_in_order (view : Z → HttpResponse) (k : nat) : list PostRow :=
  concat ((λ n, listed (view (Z.of_nat n))) <$> seq 1 k).

(** Whether the index and the category listing accept a [page] parameter
    for a query set of [k] pages. *)
Definition page_arg_valid (k : nat) (a : page_arg) : Prop :=
  match a with
  | page_absent | page_last => True
  | page_int n => (1 ≤ n ≤ Z.of_nat k)%Z
  | page_other => False
  end.

(** No two categories share a slug. *)
Definition slugs_unique (db : DB) : Prop :=
  NoDup ((λ kc, slug kc.2) <$> map_to_list (categories db)).

(** ** A small database

    Two users, a published and an unpublished category, five posts (one
    visible since long, one dated in the future, one in the unpublished
    category, one unpublished, one visible) and two comments on post 1. *)

Definition sample_user (name : string) : User :=
  {| username := name; first_name := ""; last_name := ""; email := "" |}.

Definition sample_post (date : Z) (cat who : nat) (published : bool) : Post :=
  {| title := "t"; post_text := "x"; pub_date := date; category := cat;
     location := None; image := ""; author := who; is_published := published |}.

Definition sample_db : DB :=
  {| users := <[1 := sample_user "alice"]> (<[2 := sample_user "bob"]> ∅);
     categories :=
       <[1 := {| slug := "travel"; category_is_published := true |}]> (
       <[2 := {| slug := "drafts"; category_is_published := false |}]> ∅);
     posts :=
       <[1 := sample_post 100 1 1 true]> (
       <[2 := sample_post 900 1 1 true]> (
       <[3 := sample_post 50 2 2 true]> (
       <[4 := sample_post 200 1 2 false]> (
       <[5 := sample_post 300 1 2 true]> ∅))));
     comments :=
       <[1 := {| comment_text := "first"; comment_author := 2; comment_post := 1 |}]> (
       <[2 := {| comment_text := "second"; comment_author := 1; comment_post := 1 |}]> ∅) |}.

Definition sample_models : Models :=
  {| PostForm_clean := λ _ values,
       match values with
       | [Some t; Some x; _; _; _; _] =>
           Some {| cleaned_title := t; cleaned_text := x; cleaned_pub_date := 0;
                   cleaned_category := 1; cleaned_location := None;
                   cleaned_image := "" |}
       | _ => None
       end;
     PostForm_clean_instance := λ db instance values,
       match values with
       | [Some t; Some x; _; _; _; file] =>
           Some {| cleaned_title := t; cleaned_text := x; cleaned_pub_date := 0;
                   cleaned_category := 1; cleaned_location := None;
                   cleaned_image :=
                     match file with
                     | Some name => name
                     | None => default "" (image <$> posts db !! instance)
                     end |}
       | _ => None
       end;
     CommentForm_clean := λ values,
       match values with
       | [Some t] => if decide (t = "") then None else Some t
       | _ => None
       end;
     Post_is_published_default := true;
     Post_get_absolute_url := Some blog_post_detail |}.

(** A submission with every required field of the post form, and an
    [author] and an [is_published] the form has no field for. *)
Definition sample_post_form : gmap string string :=
  <["title" := "a"]> (<["text" := "b"]> (<["pub_date" := "2024-01-01"]> (
  <["category" := "1"]> (<["author" := "1"]> (<["is_published" := "on"]> ∅))))).

Definition sample_request (m : http_method) (who : option nat) : HttpRequest :=
  {| method := m; user := who; GET_page := page_absent; POST_data := ∅ |}.

Definition sample_UserForm_clean (db : DB) (instance : nat)
    (values : list (option string)) : option User :=
  match values with
  | [Some name; Some first; Some last; Some mail] =>
      if decide (name = "") then None
      else Some {| username := name; first_name := first; last_name := last;
                   email := mail |}
  | _ => None
  end.

Definition sample_profile_form : gmap string string :=
  <["username" := "carol"]> (<["first_name" := "C"]> (<["last_name" := "D"]> (
  <["email" := "carol@example.com"]> ∅))).

(** ** Query set lemmas *)

Lemma elem_of_Post_objects db r :
  r ∈ Post_objects db ↔ posts db !! pk r = Some (fields r) ∧ comment_count r = None.
Proof.
  unfold Post_objects. rewrite list_elem_of_fmap. split.
  - intros ([k p] & -> & Hin). apply elem_of_map_to_list in Hin. done.
  - intros [Hl Hc]. exists (pk r, fields r). split.
    + destruct r; simpl in *; by subst.
    + by apply elem_of_map_to_list.
Qed.

Global Instance newer_first_total : Total newer_first.
Proof. intros a b. unfold newer_first. lia. Qed.

Global Instance newer_first_trans : Transitive newer_first.
Proof. intros a b c. unfold newer_first. lia. Qed.

Lemma elem_of_order_by qs r : r ∈ order_by_pub_date_desc qs ↔ r ∈ qs.
Proof. unfold order_by_pub_date_desc. by rewrite merge_sort_Permutation. Qed.

Lemma length_order_by qs : length (order_by_pub_date_desc qs) = length qs.
Proof. unfold order_by_pub_date_desc. by rewrite merge_sort_Permutation. Qed.

Lemma order_by_sorted qs : StronglySorted newer_first (order_by_pub_date_desc qs).
Proof. apply StronglySorted_merge_sort; apply _. Qed.

Lemma elem_of_annotate db qs r :
  r ∈ annotate_comment_count db qs ↔
  ∃ r0, r0 ∈ qs ∧ pk r = pk r0 ∧ fields r = fields r0
        ∧ comment_count r = Some (Count_comments db (pk r0)).
Proof.
  unfold annotate_comment_count. rewrite list_elem_of_fmap. split.
  - intros (r0 & -> & Hin). by exists r0.
  - intros (r0 & Hin & Hk & Hf & Hc). exists r0. split; [|done].
    destruct r; simpl in *; by subst.
Qed.

Lemma annotate_sorted db qs :
  StronglySorted newer_first qs →
  StronglySorted newer_first (annotate_comment_count db qs).
Proof.
  induction 1 as [|r qs Hs IH Hall]; simpl; constructor; [done|].
  apply Forall_fmap. eapply Forall_impl; [exact Hall|]. done.
Qed.

Lemma length_annotate db qs : length (annotate_comment_count db qs) = length qs.
Proof. unfold annotate_comment_count. by rewrite length_fmap. Qed.

(** Membership in the three query sets, in terms of the stored posts. *)
Lemma elem_of_IndexListView_queryset today db r :
  r ∈ IndexListView_queryset today db ↔
  posts db !! pk r = Some (fields r)
  ∧ (pub_date (fields r) ≤ today)%Z
  ∧ is_published (fields r) = true
  ∧ category__is_published db (fields r) = true
  ∧ comment_count r = Some (Count_comments db (pk r)).
Proof.
  unfold IndexListView_queryset. rewrite elem_of_annotate. split.
  - intros (r0 & Hin & Hk & Hf & Hc).
    rewrite elem_of_order_by, list_elem_of_filter, elem_of_Post_objects in Hin.
    rewrite Hk, Hf. intuition.
  - intros (Hl & Hd & Hp & Hcat & Hc).
    exists {| pk := pk r; fields := fields r; comment_count := None |}.
    rewrite elem_of_order_by, list_elem_of_filter, elem_of_Post_objects. done.
Qed.

Lemma elem_of_CategoryPostsListView_queryset db now s r :
  r ∈ CategoryPostsListView_get_queryset db now s ↔
  posts db !! pk r = Some (fields r)
  ∧ category__slug db (fields r) = Some s
  ∧ is_published (fields r) = true
  ∧ (pub_date (fields r) ≤ now)%Z
  ∧ comment_count r = None.
Proof.
  unfold CategoryPostsListView_get_queryset.
  rewrite elem_of_order_by, list_elem_of_filter, elem_of_Post_objects. tauto.
Qed.

Lemma elem_of_user_posts db u r :
  r ∈ user_posts db u ↔
  posts db !! pk r = Some (fields r) ∧ author (fields r) = u ∧ comment_count r = None.
Proof.
  unfold user_posts. rewrite list_elem_of_filter, elem_of_Post_objects. tauto.
Qed.

(** ** Paginator lemmas *)

Section PaginatorFacts.
Variable l : list PostRow.
Variable per_page : nat.
Hypothesis per_page_pos : 0 < per_page.

Lemma num_pages_bounds :
  1 ≤ num_pages l per_page
  ∧ length l ≤ num_pages l per_page * per_page
  ∧ (num_pages l per_page - 1) * per_page < Nat.max 1 (length l).
Proof.
  unfold num_pages, count.
  set (h := Nat.max 1 (length l)).
  assert (1 ≤ h) by lia. assert (length l ≤ h) by lia.
  pose proof (Nat.div_mod_eq (h + per_page - 1) per_page) as Hdm.
  pose proof (Nat.mod_upper_bound (h + per_page - 1) per_page) as Hub.
  set (q := (h + per_page - 1) / per_page) in *.
  set (r := (h + per_page - 1) mod per_page) in *.
  nia.
Qed.

Lemma page_int_valid (n : Z) :
  (1 ≤ n ≤ Z.of_nat (num_pages l per_page))%Z →
  page l per_page (page_int n)
  = inr {| object_list := page_slice l per_page (Z.to_nat (n - 1)); number := n |}.
Proof.
  intros Hn. unfold page, validate_number.
  destruct (Z.ltb_spec n 1) as [?|_]; [lia|].
  destruct (Z.ltb_spec (Z.of_nat (num_pages l per_page)) n) as [?|_]; [lia|].
  f_equal. f_equal. unfold page_slice, count.
  set (bottom := Z.to_nat (n - 1) * per_page).
  case_decide as Htop.
  - rewrite !take_ge; [done| |]; rewrite length_drop; lia.
  - f_equal. lia.
Qed.

Lemma page_inr a pg :
  page l per_page a = inr pg →
  ∃ n : Z, a = page_int n
    ∧ (1 ≤ n ≤ Z.of_nat (num_pages l per_page))%Z
    ∧ pg = {| object_list := page_slice l per_page (Z.to_nat (n - 1)); number := n |}.
Proof.
  intros Hpg. destruct a as [|n| |]; try (by unfold page in Hpg).
  assert (1 ≤ n ≤ Z.of_nat (num_pages l per_page))%Z as Hn.
  { unfold page, validate_number in Hpg.
    destruct (Z.ltb_spec n 1); [done|].
    destruct (Z.ltb_spec (Z.of_nat (num_pages l per_page)) n); [done|]. lia. }
  exists n. split; [done|]. split; [done|].
  rewrite page_int_valid in Hpg by done. by injection Hpg as <-.
Qed.

(** [get_page] always returns a page. *)
Lemma get_page_inr a :
  ∃ n : Z, (1 ≤ n ≤ Z.of_nat (num_pages l per_page))%Z
    ∧ get_page l per_page a
      = inr {| object_list := page_slice l per_page (Z.to_nat (n - 1)); number := n |}.
Proof.
  pose proof num_pages_bounds as (Hnp & _ & _).
  unfold get_page.
  destruct (validate_number l per_page a) as [[]|n] eqn:Hv.
  - exists 1%Z. split; [lia|]. apply page_int_valid. lia.
  - exists (Z.of_nat (num_pages l per_page)). split; [lia|].
    apply page_int_valid. lia.
  - exists n.
    assert (1 ≤ n ≤ Z.of_nat (num_pages l per_page))%Z as Hn.
    { destruct a as [|m| |]; try done. unfold validate_number in Hv.
      destruct (Z.ltb_spec m 1); [done|].
      destruct (Z.ltb_spec (Z.of_nat (num_pages l per_page)) m); [done|].
      injection Hv as <-. lia. }
    split; [done|]. by apply page_int_valid.
Qed.

Lemma get_page_int_valid (n : Z) :
  (1 ≤ n ≤ Z.of_nat (num_pages l per_page))%Z →
  get_page l per_page (page_int n)
  = inr {| object_list := page_slice l per_page (Z.to_nat (n - 1)); number := n |}.
Proof.
  intros Hn. unfold get_page, validate_number.
  destruct (Z.ltb_spec n 1) as [?|_]; [lia|].
  destruct (Z.ltb_spec (Z.of_nat (num_pages l per_page)) n) as [?|_]; [lia|].
  by apply page_int_valid.
Qed.

Lemma paginate_queryset_Return a pg :
  paginate_queryset l per_page a = Return pg →
  ∃ n : Z, (1 ≤ n ≤ Z.of_nat (num_pages l per_page))%Z
    ∧ pg = {| object_list := page_slice l per_page (Z.to_nat (n - 1)); number := n |}.
Proof.
  unfold paginate_queryset. intros Hpg.
  destruct a as [|n| |]; simpl in Hpg; try done;
    match type of Hpg with
    | context [page l per_page ?b] =>
        destruct (page l per_page b) as [e|pg'] eqn:Hp; [done|];
        injection Hpg as ->; apply page_inr in Hp as (m & _ & Hm & ->);
        by exists m
    end.
Qed.

Lemma paginate_queryset_int_valid (n : Z) :
  (1 ≤ n ≤ Z.of_nat (num_pages l per_page))%Z →
  paginate_queryset l per_page (page_int n)
  = Return {| object_list := page_slice l per_page (Z.to_nat (n - 1)); number := n |}.
Proof.
  intros Hn. unfold paginate_queryset. simpl. by rewrite page_int_valid.
Qed.

Lemma page_slice_length n : length (page_slice l per_page n) ≤ per_page.
Proof. unfold page_slice. rewrite length_take. lia. Qed.

Lemma page_slice_elem_of n x : x ∈ page_slice l per_page n → x ∈ l.
Proof.
  unfold page_slice. intros Hx.
  apply subseteq_drop with (n * per_page). by apply subseteq_take in Hx.
Qed.

Lemma page_slice_sorted (R : relation PostRow) n :
  StronglySorted R l → StronglySorted R (page_slice l per_page n).
Proof.
  intros Hs. unfold page_slice.
  assert (∀ k (m : list PostRow), StronglySorted R m → StronglySorted R (drop k m))
    as Hdrop.
  { induction k as [|k IH]; intros m Hm; [done|].
    destruct Hm; [constructor|]. by apply IH. }
  assert (∀ k (m : list PostRow), StronglySorted R m → StronglySorted R (take k m))
    as Htake.
  { induction k as [|k IH]; intros m Hm; [constructor|].
    destruct Hm as [|x m Hm Hall]; [constructor|]. simpl. constructor; [by apply IH|].
    apply Forall_take. done. }
  by apply Htake, Hdrop.
Qed.

(** The first [k] pages hold the first [k * per_page] rows. *)
Lemma page_slice_total k :
  sum_list_with (λ n, length (page_slice l per_page n)) (seq 0 k)
  = Nat.min (k * per_page) (length l).
Proof.
  induction k as [|k IH]; [done|].
  rewrite seq_S, sum_list_with_app, IH. simpl.
  unfold page_slice. rewrite length_take, length_drop. lia.
Qed.

Lemma page_slice_all :
  sum_list_with (λ n, length (page_slice l per_page n)) (seq 0 (num_pages l per_page))
  = length l.
Proof.
  rewrite page_slice_total. pose proof num_pages_bounds. lia.
Qed.

(** Every row is on one of the pages. *)
Lemma page_slice_cover i x :
  l !! i = Some x →
  i / per_page < num_pages l per_page ∧ x ∈ page_slice l per_page (i / per_page).
Proof.
  intros Hi. pose proof (lookup_lt_Some _ _ _ Hi) as Hlt.
  pose proof num_pages_bounds as (_ & Hnp & _).
  pose proof (Nat.div_mod_eq i per_page) as Hdm.
  pose proof (Nat.mod_upper_bound i per_page) as Hub.
  split.
  - apply Nat.Div0.div_lt_upper_bound. lia.
  - unfold page_slice. apply elem_of_take. exists (i mod per_page).
    split; [|lia]. rewrite lookup_drop. rewrite <- Hi. f_equal. lia.
Qed.
End PaginatorFacts.

(** ** The post detail page *)






(** ** Ownership of posts and comments *)

Lemma PostDispatchMixin_dispatch_other db request post_id post super_dispatch :
  posts db !! post_id = Some post →
  user request ≠ Some (author post) →
  PostDispatchMixin_dispatch db request post_id super_dispatch
  = (redirect (blog_post_detail post_id), db).
Proof.
  intros Hpost Hother. unfold PostDispatchMixin_dispatch, get_object_or_404.
  rewrite Hpost. simpl. rewrite decide_True; [done|]. congruence.
Qed.

Lemma PostDispatchMixin_dispatch_author db request post_id post super_dispatch :
  posts db !! post_id = Some post →
  user request = Some (author post) →
  PostDispatchMixin_dispatch db request post_id super_dispatch = super_dispatch.
Proof.
  intros Hpost Hauthor. unfold PostDispatchMixin_dispatch, get_object_or_404.
  rewrite Hpost. simpl. rewrite decide_False; [done|]. intros Hne. by apply Hne.
Qed.

Lemma CommentMixin_dispatch_other db request comment_id c super_dispatch :
  comments db !! comment_id = Some c →
  user request ≠ Some (comment_author c) →
  CommentMixin_dispatch db request comment_id super_dispatch
  = (redirect (blog_post_detail (comment_post c)), db).
Proof.
  intros Hc Hother. unfold CommentMixin_dispatch, get_object_or_404.
  rewrite Hc. simpl. rewrite decide_True; [done|]. congruence.
Qed.

Lemma CommentMixin_dispatch_author db request comment_id c super_dispatch :
  comments db !! comment_id = Some c →
  user request = Some (comment_author c) →
  CommentMixin_dispatch db request comment_id super_dispatch = super_dispatch.
Proof.
  intros Hc Hauthor. unfold CommentMixin_dispatch, get_object_or_404.
  rewrite Hc. simpl. rewrite decide_False; [done|]. intros Hne. by apply Hne.
Qed.

Lemma LoginRequiredMixin_dispatch_user {R} request u (denied : R) super_dispatch :
  user request = Some u →
  LoginRequiredMixin_dispatch request denied super_dispatch = super_dispatch u.
Proof. intros Hu. unfold LoginRequiredMixin_dispatch. by rewrite Hu. Qed.

Lemma LoginRequiredMixin_dispatch_anonymous {R} request (denied : R) super_dispatch :
  user request = None →
  LoginRequiredMixin_dispatch request denied super_dispatch = denied.
Proof. intros Hu. unfold LoginRequiredMixin_dispatch. by rewrite Hu. Qed.

(** C2. For an authenticated user [u], every existing post and every
    existing comment: when [u] is not the author, the update and the delete
    view answer with a redirect (302) to the detail page of the post (for a
    comment, of the comment's post) and leave the database as it was; when
    [u] is the author the request proceeds: GET shows the form; POST to the
    delete view redirects and the row is no longer stored; POST of a valid
    form to the update view redirects and the row stored under the key has
    the cleaned form fields, its author (and, for a post, its publication
    flag; for a comment, its post) as before.  In each case every other
    row and every other table is as it was. *)
Theorem only_author_updates_or_deletes M db request u :
  user request = Some u →
  (∀ post_id post,
     posts db !! post_id = Some post →
     (u ≠ author post →
        PostUpdateView M db request post_id = (redirect (blog_post_detail post_id), db)
        ∧ PostDeleteView db request post_id = (redirect (blog_post_detail post_id), db))
     ∧ (u = author post →
        (method request = GET →
           PostUpdateView M db request post_id
           = (render (form_html "blog/create.html" (Some post_id) false), db)
           ∧ PostDeleteView db request post_id
             = (render (form_html "blog/create.html" (Some post_id) false), db))
        ∧ (method request = POST →
           ∃ db', PostDeleteView db request post_id = (redirect blog_index, db')
                  ∧ posts db' = delete post_id (posts db))
        ∧ (method request = POST → ∀ cleaned,
           PostForm_clean_instance M db post_id
             (bound_data PostForm_fields (POST_data request))
           = Some cleaned →
           let after := (PostUpdateView M db request post_id).2 in
           (∀ to, Post_get_absolute_url M = Some to →
                  (PostUpdateView M db request post_id).1 = redirect (to post_id))
           ∧ posts after !! post_id
             = Some {| title := cleaned_title cleaned;
                       post_text := cleaned_text cleaned;
                       pub_date := cleaned_pub_date cleaned;
                       category := cleaned_category cleaned;
                       location := cleaned_location cleaned;
                       image := cleaned_image cleaned;
                       author := author post;
                       is_published := is_published post |}
           ∧ (∀ k, k ≠ post_id → posts after !! k = posts db !! k)
           ∧ users after = users db ∧ categories after = categories db
           ∧ comments after = comments db)))
  ∧ (∀ comment_id c,
       comments db !! comment_id = Some c →
       (u ≠ comment_author c →
          CommentUpdateView M db request comment_id
          = (redirect (blog_post_detail (comment_post c)), db)
          ∧ CommentDeleteView db request comment_id
            = (redirect (blog_post_detail (comment_post c)), db))
       ∧ (u = comment_author c →
          (method request = GET →
             CommentUpdateView M db request comment_id
             = (render (form_html "blog/comment.html" (Some comment_id) false), db)
             ∧ CommentDeleteView db request comment_id
               = (render (form_html "blog/comment.html" (Some comment_id) false), db))
          ∧ (method request = POST →
             let after := (CommentDeleteView db request comment_id).2 in
             (CommentDeleteView db request comment_id).1
             = redirect (blog_post_detail (comment_post c))
             ∧ comments after !! comment_id = None
             ∧ (∀ k, k ≠ comment_id → comments after !! k = comments db !! k)
             ∧ users after = users db ∧ categories after = categories db
             ∧ posts after = posts db)
          ∧ (method request = POST → ∀ cleaned,
             CommentForm_clean M (bound_data CommentForm_fields (POST_data request))
             = Some cleaned →
             let after := (CommentUpdateView M db request comment_id).2 in
             (CommentUpdateView M db request comment_id).1
             = redirect (blog_post_detail (comment_post c))
             ∧ comments after !! comment_id
               = Some {| comment_text := cleaned; comment_author := comment_author c;
                         comment_post := comment_post c |}
             ∧ (∀ k, k ≠ comment_id → comments after !! k = comments db !! k)
             ∧ users after = users db ∧ categories after = categories db
             ∧ posts after = posts db))).
Proof.
  intros Hu. split.
  - intros post_id post Hpost. split.
    + intros Hne. unfold PostUpdateView, PostDeleteView.
      split; eapply PostDispatchMixin_dispatch_other; eauto; congruence.
    + intros ->. unfold PostUpdateView, PostDeleteView.
      rewrite !(PostDispatchMixin_dispatch_author _ _ _ post) by done.
      rewrite !(LoginRequiredMixin_dispatch_user _ (author post)) by done.
      unfold PostUpdateView_handler, PostDeleteView_handler, get_object_or_404.
      rewrite Hpost. cbn [mbind outcome_bind respond_in]. split; [|split].
      * intros ->. cbn [mbind outcome_bind respond_in]. rewrite ?Hpost. done.
      * intros ->. by eexists.
      * intros -> cleaned ->. cbv zeta. cbn [fst snd respond_in].
        split; [|split; [|split; [|done]]].
        -- intros to Hto. unfold PostUpdateView_get_success_url. by rewrite Hto.
        -- cbn [posts set_posts]. by rewrite lookup_insert_eq.
        -- intros k Hk. cbn [posts set_posts]. by rewrite lookup_insert_ne.
  - intros comment_id c Hc. split.
    + intros Hne. unfold CommentUpdateView, CommentDeleteView.
      rewrite !(LoginRequiredMixin_dispatch_user _ u) by done.
      split; eapply CommentMixin_dispatch_other; eauto; congruence.
    + intros ->. unfold CommentUpdateView, CommentDeleteView.
      rewrite !(LoginRequiredMixin_dispatch_user _ (comment_author c)) by done.
      rewrite !(CommentMixin_dispatch_author _ _ _ c) by done.
      unfold CommentUpdateView_handler, CommentDeleteView_handler, get_object_or_404.
      rewrite Hc. cbn [mbind outcome_bind respond_in]. split; [|split].
      * intros ->. cbn [mbind outcome_bind respond_in]. rewrite ?Hc. done.
      * intros ->. cbv zeta. cbn [fst snd respond_in].
        split; [done|]. split; [|split; [|done]].
        -- cbn [comments set_comments]. apply lookup_delete_eq.
        -- intros k Hk. cbn [comments set_comments]. by rewrite lookup_delete_ne.
      * intros -> cleaned ->. cbv zeta. cbn [fst snd respond_in].
        split; [done|]. split; [|split; [|done]].
        -- cbn [comments set_comments]. by rewrite lookup_insert_eq.
        -- intros k Hk. cbn [comments set_comments]. by rewrite lookup_insert_ne.
Qed.

Lemma only_author_updates_or_deletes_witness :
  PostUpdateView sample_models sample_db (sample_request POST (Some 2)) 1
  = (redirect (blog_post_detail 1), sample_db)
  ∧ comments (CommentDeleteView sample_db (sample_request POST (Some 2)) 1).2 !! 1
    = None
  ∧ posts (PostUpdateView sample_models sample_db
             {| method := POST; user := Some 1; GET_page := page_absent;
                POST_data := sample_post_form |} 1).2 !! 1
    = Some {| title := "a"; post_text := "b"; pub_date := 0; category := 1;
              location := None; image := ""; author := 1; is_published := true |}.
Proof.
  pose proof (only_author_updates_or_deletes sample_models sample_db
                (sample_request POST (Some 2)) 2 eq_refl) as [Hposts Hcomments].
  pose proof (only_author_updates_or_deletes sample_models sample_db
                {| method := POST; user := Some 1; GET_page := page_absent;
                   POST_data := sample_post_form |} 1 eq_refl) as [Hown _].
  split; [|split].
  - apply (Hposts 1 (sample_post 100 1 1 true) eq_refl). simpl. lia.
  - apply (Hcomments 1
             {| comment_text := "first"; comment_author := 2; comment_post := 1 |}
             eq_refl); reflexivity.
  - destruct (Hown 1 (sample_post 100 1 1 true) eq_refl) as [_ Hauthor].
    destruct (Hauthor eq_refl) as (_ & _ & Hupdate).
    assert (PostForm_clean_instance sample_models sample_db 1
              (bound_data PostForm_fields sample_post_form)
            = Some {| cleaned_title := "a"; cleaned_text := "b"; cleaned_pub_date := 0;
                      cleaned_category := 1; cleaned_location := None;
                      cleaned_image := "" |}) as Hclean by (vm_compute; reflexivity).
    destruct (Hupdate eq_refl _ Hclean) as (_ & Hrow & _). exact Hrow.
Defined.

(** ** Anonymous requests *)

Lemma PostDispatchMixin_dispatch_anonymous db request post_id post super_dispatch :
  posts db !! post_id = Some post →
  user request = None →
  PostDispatchMixin_dispatch db request post_id super_dispatch
  = (redirect (blog_post_detail post_id), db).
Proof.
  intros Hpost Hanon. eapply PostDispatchMixin_dispatch_other; [done|]. by rewrite Hanon.
Qed.

(** Where the login mixin comes first, the anonymous request is sent to the
    login page: the post creation view, the comment update and delete
    views, and the comment creation view once the post of the URL is
    found. *)
Lemma anonymous_sent_to_login M db request :
  user request = None →
  PostCreateView M db request = (redirect login_url, db)
  ∧ (∀ comment_id,
       CommentUpdateView M db request comment_id = (redirect login_url, db)
       ∧ CommentDeleteView db request comment_id = (redirect login_url, db))
  ∧ (∀ post_id, is_Some (posts db !! post_id) →
       CommentCreateView M db request post_id = (redirect login_url, db)).
Proof.
  intros Hanon. split; [|split].
  - unfold PostCreateView. by rewrite LoginRequiredMixin_dispatch_anonymous.
  - intros comment_id. unfold CommentUpdateView, CommentDeleteView.
    by rewrite !LoginRequiredMixin_dispatch_anonymous.
  - intros post_id [post Hpost]. unfold CommentCreateView, get_object_or_404.
    rewrite Hpost. simpl. by rewrite LoginRequiredMixin_dispatch_anonymous.
Qed.

(** C3 (the code departs from it). The claim sends every anonymous request
    to a create, update or delete view to the login page.  In
    [PostUpdateView] and [PostDeleteView] the ownership check of
    [PostDispatchMixin] runs before the login mixin: the anonymous request
    for post 1 of the sample database is redirected to the detail page of
    the post, not to the login page. *)
Theorem anonymous_post_edit_not_sent_to_login :
  PostUpdateView sample_models sample_db (sample_request GET None) 1
  = (redirect (blog_post_detail 1), sample_db)
  ∧ PostDeleteView sample_db (sample_request POST None) 1
    = (redirect (blog_post_detail 1), sample_db)
  ∧ redirect (blog_post_detail 1) ≠ redirect login_url.
Proof.
  split; [|split].
  - unfold PostUpdateView. by eapply PostDispatchMixin_dispatch_anonymous.
  - unfold PostDeleteView. by eapply PostDispatchMixin_dispatch_anonymous.
  - discriminate.
Qed.

(** ** Comment creation *)

Lemma fresh_key_unused {A} (m : gmap nat A) : m !! fresh (dom m) = None.
Proof. apply not_elem_of_dom. apply is_fresh. Qed.

(** C4. A comment-creation POST by an authenticated user [u] against the
    existing post [post_id] of the URL, when the form is valid, redirects
    to the post and stores one new comment: under a key that was unused,
    the resulting database holds a comment whose author is [u], whose post
    is [post_id] and whose text is the cleaned [text] field; every other
    comment and every other table is as it was.  With an invalid form
    nothing is stored.  The outcome depends on the submission through its
    [text] entry alone: any other submitted value (an [author], a [post])
    changes nothing. *)
Theorem CommentCreateView_stamps_author_and_post M db request u post_id post :
  method request = POST →
  user request = Some u →
  posts db !! post_id = Some post →
  let after := (CommentCreateView M db request post_id).2 in
  (∀ cleaned,
     CommentForm_clean M [POST_data request !! "text"] = Some cleaned →
     (CommentCreateView M db request post_id).1 = redirect (blog_post_detail post_id)
     ∧ ∃ k, comments db !! k = None
         ∧ comments after !! k
           = Some {| comment_text := cleaned; comment_author := u;
                     comment_post := post_id |}
         ∧ (∀ j, j ≠ k → comments after !! j = comments db !! j)
         ∧ posts after = posts db ∧ users after = users db
         ∧ categories after = categories db)
  ∧ (CommentForm_clean M [POST_data request !! "text"] = None → after = db)
  ∧ (∀ data, data !! "text" = POST_data request !! "text" →
     CommentCreateView M db (with_POST_data request data) post_id
     = CommentCreateView M db request post_id).
Proof.
  intros Hpost_method Hu Hpost. cbv zeta.
  unfold CommentCreateView, get_object_or_404. rewrite Hpost. simpl.
  rewrite !(LoginRequiredMixin_dispatch_user _ u) by done.
  rewrite Hpost_method. unfold bound_data, CommentForm_fields. simpl.
  split; [|split].
  - intros cleaned ->. unfold CommentCreateView_form_valid. cbn [fst snd].
    split; [done|]. exists (fresh (dom (comments db))).
    split; [apply fresh_key_unused|]. split; [|split; [|done]].
    + cbn [comments set_comments]. by rewrite lookup_insert_eq.
    + intros j Hj. cbn [comments set_comments]. by rewrite lookup_insert_ne.
  - intros ->. done.
  - intros data Hdata. unfold LoginRequiredMixin_dispatch. simpl.
    rewrite ?Hu, ?Hpost_method. simpl. by rewrite Hdata.
Qed.

Lemma CommentCreateView_stamps_author_and_post_witness :
  ∃ k, comments sample_db !! k = None
    ∧ comments (CommentCreateView sample_models sample_db
                  {| method := POST; user := Some 2; GET_page := page_absent;
                     POST_data :=
                       <["text" := "hey"]> (<["author" := "1"]> (<["post" := "9"]> ∅)) |}
                  3).2 !! k
      = Some {| comment_text := "hey"; comment_author := 2; comment_post := 3 |}.
Proof.
  destruct (CommentCreateView_stamps_author_and_post sample_models sample_db
              {| method := POST; user := Some 2; GET_page := page_absent;
                 POST_data :=
                   <["text" := "hey"]> (<["author" := "1"]> (<["post" := "9"]> ∅)) |}
              2 3 (sample_post 50 2 2 true) eq_refl eq_refl eq_refl) as [Hvalid _].
  destruct (Hvalid "hey") as (_ & k & Hfree & Hrow & _); [reflexivity|].
  exists k. split; [exact Hfree|exact Hrow].
Defined.

(** ** Lookups by slug and by username *)

Lemma NoDup_fmap_inj_on {A B} (f : A → B) (l : list A) x y :
  NoDup (f <$> l) → x ∈ l → y ∈ l → f x = f y → x = y.
Proof.
  induction l as [|a l IH]; simpl; intros Hnd Hx Hy Hf.
  - by apply elem_of_nil in Hx.
  - apply NoDup_cons in Hnd as [Ha Hnd].
    apply elem_of_cons in Hx as [->|Hx]; apply elem_of_cons in Hy as [->|Hy].
    + done.
    + exfalso. apply Ha. rewrite Hf. by apply list_elem_of_fmap_2.
    + exfalso. apply Ha. rewrite <- Hf. by apply list_elem_of_fmap_2.
    + by apply IH.
Qed.

Lemma slugs_unique_key db k1 k2 c1 c2 :
  slugs_unique db →
  categories db !! k1 = Some c1 → categories db !! k2 = Some c2 →
  slug c1 = slug c2 → k1 = k2 ∧ c1 = c2.
Proof.
  intros Hu H1 H2 Hs.
  assert ((k1, c1) = (k2, c2)) as Heq.
  { apply (NoDup_fmap_inj_on (λ kc : nat * Category, slug kc.2)
             (map_to_list (categories db))); [exact Hu| | |done];
      by apply elem_of_map_to_list. }
  by injection Heq.
Qed.

Lemma get_Return {A} (l : list A) x : get l = Return x → l = [x].
Proof. destruct l as [|a [|b l]]; simpl; congruence. Qed.

Lemma get_published_category_Return db s k c :
  get_published_category db s = Return (k, c) →
  categories db !! k = Some c ∧ slug c = s ∧ category_is_published c = true.
Proof.
  intros Hg. apply get_Return in Hg.
  assert ((k, c) ∈ [(k, c)]) as Hin by (by apply list_elem_of_singleton).
  rewrite <- Hg in Hin. apply list_elem_of_filter in Hin as [[Hs Hp] Hin].
  apply elem_of_map_to_list in Hin. done.
Qed.

(** With unique slugs, the lookup of an unpublished category's slug among
    the published categories finds nothing. *)
Lemma get_published_category_unpublished db s k c :
  slugs_unique db →
  categories db !! k = Some c → slug c = s → category_is_published c = false →
  get_published_category db s = Raise Http404.
Proof.
  intros Hu Hk Hs Hp. unfold get_published_category.
  replace (filter _ (map_to_list (categories db))) with (@nil (nat * Category)); [done|].
  symmetry. apply elem_of_nil_inv. intros [k' c'] Hin.
  apply list_elem_of_filter in Hin as [[Hs' Hp'] Hin]. simpl in *.
  apply elem_of_map_to_list in Hin.
  destruct (slugs_unique_key db k k' c c' Hu Hk Hin) as [_ <-]; congruence.
Qed.

Lemma get_user_by_username_Return db name u usr :
  get_user_by_username db name = Return (u, usr) →
  users db !! u = Some usr ∧ username usr = name.
Proof.
  intros Hg. apply get_Return in Hg.
  assert ((u, usr) ∈ [(u, usr)]) as Hin by (by apply list_elem_of_singleton).
  rewrite <- Hg in Hin. apply list_elem_of_filter in Hin as [Hn Hin].
  apply elem_of_map_to_list in Hin. done.
Qed.

(** ** What the listing views return *)

Lemma sum_pages (f g : nat → nat) k :
  (∀ n, n < k → f (S n) = g n) →
  sum_list_with f (seq 1 k) = sum_list_with g (seq 0 k).
Proof.
  induction k as [|k IH]; intros Hfg; [done|].
  rewrite !seq_S, !sum_list_with_app, IH by (intros; apply Hfg; lia).
  simpl. rewrite Hfg by lia. done.
Qed.

Lemma POSTS_PER_PAGE_pos : 0 < POSTS_PER_PAGE.
Proof. unfold POSTS_PER_PAGE. lia. Qed.

(** A listing response shows one page slice of the view's query set, or
    nothing. *)
Lemma IndexListView_listed today db request :
  listed (IndexListView today db request) = []
  ∨ ∃ n, listed (IndexListView today db request)
         = page_slice (IndexListView_queryset today db) POSTS_PER_PAGE n.
Proof.
  unfold IndexListView, View_dispatch_get.
  destruct (method request); [|by left].
  destruct (paginate_queryset _ _ _) as [pg|e] eqn:Hpg; simpl; [|left; by destruct e].
  apply paginate_queryset_Return in Hpg as (n & _ & ->); [|apply POSTS_PER_PAGE_pos].
  right. by eexists.
Qed.

Lemma CategoryPostsListView_listed db now request s :
  listed (CategoryPostsListView db now request s) = []
  ∨ ∃ n kc, get_published_category db s = Return kc
      ∧ listed (CategoryPostsListView db now request s)
        = page_slice (CategoryPostsListView_get_queryset db now s) POSTS_PER_PAGE n.
Proof.
  unfold CategoryPostsListView, View_dispatch_get, CategoryPostsListView_get_context_data.
  destruct (method request); [|by left].
  destruct (paginate_queryset _ _ _) as [pg|e] eqn:Hpg; simpl; [|left; by destruct e].
  apply paginate_queryset_Return in Hpg as (n & _ & ->); [|apply POSTS_PER_PAGE_pos].
  destruct (get_published_category db s) as [kc|e]; simpl; [|left; by destruct e].
  right. by exists (Z.to_nat (n - 1)), kc.
Qed.

Lemma UserDetailView_listed db request name :
  listed (UserDetailView db request name) = []
  ∨ ∃ n ku, get_user_by_username db name = Return ku
      ∧ listed (UserDetailView db request name)
        = page_slice (annotate_comment_count db
                        (order_by_pub_date_desc (user_posts db ku.1)))
            POSTS_PER_PAGE n.
Proof.
  unfold UserDetailView, View_dispatch_get, UserDetailView_get_context_data.
  destruct (method request); [|by left].
  destruct (get_user_by_username db name) as [ku|e]; simpl; [|left; by destruct e].
  destruct (get_page_inr (annotate_comment_count db
              (order_by_pub_date_desc (user_posts db ku.1)))
              POSTS_PER_PAGE POSTS_PER_PAGE_pos (GET_page request)) as (n & _ & ->).
  simpl. right. by exists (Z.to_nat (n - 1)), ku.
Qed.

(** The page a GET request for the valid page number [n] is answered
    with. *)
Lemma IndexListView_page today db request (n : Z) :
  method request = GET →
  (1 ≤ n ≤ Z.of_nat (num_pages (IndexListView_queryset today db) POSTS_PER_PAGE))%Z →
  IndexListView today db (with_page request n)
  = render (index_html
      {| object_list :=
           page_slice (IndexListView_queryset today db) POSTS_PER_PAGE (Z.to_nat (n - 1));
         number := n |}).
Proof.
  intros Hget Hn. unfold IndexListView, View_dispatch_get. simpl. rewrite Hget.
  by rewrite paginate_queryset_int_valid by (done || apply POSTS_PER_PAGE_pos).
Qed.

Lemma CategoryPostsListView_page db now request s kc (n : Z) :
  method request = GET →
  get_published_category db s = Return kc →
  (1 ≤ n ≤ Z.of_nat (num_pages (CategoryPostsListView_get_queryset db now s)
                       POSTS_PER_PAGE))%Z →
  CategoryPostsListView db now (with_page request n) s
  = render (category_html kc.1
      {| object_list :=
           page_slice (CategoryPostsListView_get_queryset db now s) POSTS_PER_PAGE
             (Z.to_nat (n - 1));
         number := n |}).
Proof.
  intros Hget Hcat Hn.
  unfold CategoryPostsListView, View_dispatch_get, CategoryPostsListView_get_context_data.
  simpl. rewrite Hget.
  rewrite paginate_queryset_int_valid by (done || apply POSTS_PER_PAGE_pos).
  simpl. by rewrite Hcat.
Qed.

Lemma UserDetailView_page db request name ku (n : Z) :
  method request = GET →
  get_user_by_username db name = Return ku →
  (1 ≤ n ≤ Z.of_nat (num_pages (annotate_comment_count db
                        (order_by_pub_date_desc (user_posts db ku.1)))
                       POSTS_PER_PAGE))%Z →
  UserDetailView db (with_page request n) name
  = render (profile_html ku.1
      {| object_list :=
           page_slice (annotate_comment_count db
                         (order_by_pub_date_desc (user_posts db ku.1)))
             POSTS_PER_PAGE (Z.to_nat (n - 1));
         number := n |} (user request)).
Proof.
  intros Hget Hu Hn.
  unfold UserDetailView, View_dispatch_get, UserDetailView_get_context_data.
  simpl. rewrite Hget, Hu. simpl.
  by rewrite get_page_int_valid by (done || apply POSTS_PER_PAGE_pos).
Qed.

(** ** Visibility in the listings *)

Lemma category__slug_Some db p s :
  category__slug db p = Some s →
  ∃ c, categories db !! category p = Some c ∧ slug c = s.
Proof.
  unfold category__slug. destruct (categories db !! category p) as [c|]; [|done].
  simpl. intros [= <-]. by exists c.
Qed.

(** C5. No post in the page returned by the index listing or by a category
    listing violates the visibility invariant: every listed row is a stored
    post that is published, whose category is published and whose
    [pub_date] is at or before the moment of the request.  For the index
    the class was defined no later than the request is served; for the
    category listing no two categories share a slug. *)
Theorem listings_respect_visibility today db now request category_slug r :
  ((today ≤ now)%Z →
   r ∈ listed (IndexListView today db request) →
   posts db !! pk r = Some (fields r) ∧ visible db now (fields r))
  ∧ (slugs_unique db →
     r ∈ listed (CategoryPostsListView db now request category_slug) →
     posts db !! pk r = Some (fields r) ∧ visible db now (fields r)).
Proof.
  split.
  - intros Htoday Hr.
    destruct (IndexListView_listed today db request) as [Hnil|(n & Hl)];
      rewrite ?Hnil, ?Hl in Hr; [by apply elem_of_nil in Hr|].
    apply page_slice_elem_of, elem_of_IndexListView_queryset in Hr
      as (Hrow & Hd & Hp & Hc & _).
    unfold visible. repeat split; try done. lia.
  - intros Huniq Hr.
    destruct (CategoryPostsListView_listed db now request category_slug)
      as [Hnil|(n & [k c] & Hcat & Hl)];
      rewrite ?Hnil, ?Hl in Hr; [by apply elem_of_nil in Hr|].
    apply page_slice_elem_of, elem_of_CategoryPostsListView_queryset in Hr
      as (Hrow & Hs & Hp & Hd & _).
    apply get_published_category_Return in Hcat as (Hk & Hks & Hkp).
    apply category__slug_Some in Hs as (c' & Hc' & Hs').
    destruct (slugs_unique_key db k (category (fields r)) c c' Huniq Hk Hc')
      as [_ <-]; [congruence|].
    unfold visible, category__is_published. rewrite Hc'. done.
Qed.

Lemma sample_db_slugs_unique : slugs_unique sample_db.
Proof. unfold slugs_unique. apply (bool_decide_unpack _). vm_compute. exact I. Defined.

Lemma listings_respect_visibility_witness :
  visible sample_db 500 (sample_post 300 1 2 true)
  ∧ visible sample_db 500 (sample_post 100 1 1 true).
Proof.
  split.
  - apply (proj1 (listings_respect_visibility 400 sample_db 500
                    (sample_request GET None) "travel"
                    {| pk := 5; fields := sample_post 300 1 2 true;
                       comment_count := Some 0 |})).
    + lia.
    + assert (listed (IndexListView 400 sample_db (sample_request GET None))
              = [{| pk := 5; fields := sample_post 300 1 2 true; comment_count := Some 0 |};
                 {| pk := 1; fields := sample_post 100 1 1 true; comment_count := Some 2 |}])
        as -> by (vm_compute; reflexivity).
      apply elem_of_cons. by left.
  - apply (proj2 (listings_respect_visibility 400 sample_db 500
                    (sample_request GET None) "travel"
                    {| pk := 1; fields := sample_post 100 1 1 true;
                       comment_count := None |})).
    + exact sample_db_slugs_unique.
    + assert (listed (CategoryPostsListView sample_db 500 (sample_request GET None) "travel")
              = [{| pk := 5; fields := sample_post 300 1 2 true; comment_count := None |};
                 {| pk := 1; fields := sample_post 100 1 1 true; comment_count := None |}])
        as -> by (vm_compute; reflexivity).
      apply elem_of_cons. right. apply elem_of_cons. by left.
Defined.

(** ** Order and annotation of the listings *)

(** The three listings come newest first. *)
Lemma listings_newest_first today db now request category_slug name :
  StronglySorted newer_first (listed (IndexListView today db request))
  ∧ StronglySorted newer_first
      (listed (CategoryPostsListView db now request category_slug))
  ∧ StronglySorted newer_first (listed (UserDetailView db request name)).
Proof.
  split; [|split].
  - destruct (IndexListView_listed today db request) as [->|(n & ->)]; [constructor|].
    apply page_slice_sorted, annotate_sorted, order_by_sorted.
  - destruct (CategoryPostsListView_listed db now request category_slug)
      as [->|(n & kc & _ & ->)]; [constructor|].
    apply page_slice_sorted, order_by_sorted.
  - destruct (UserDetailView_listed db request name) as [->|(n & ku & _ & ->)];
      [constructor|].
    apply page_slice_sorted, annotate_sorted, order_by_sorted.
Qed.

(** The rows of the index and of the profile carry the number of comments
    of their post. *)
Lemma index_and_profile_annotated today db request name r :
  (r ∈ listed (IndexListView today db request) →
   comment_count r = Some (Count_comments db (pk r)))
  ∧ (r ∈ listed (UserDetailView db request name) →
     comment_count r = Some (Count_comments db (pk r))).
Proof.
  split; intros Hr.
  - destruct (IndexListView_listed today db request) as [Hnil|(n & Hl)];
      rewrite ?Hnil, ?Hl in Hr; [by apply elem_of_nil in Hr|].
    by apply page_slice_elem_of, elem_of_IndexListView_queryset in Hr as (_ & _ & _ & _ & ?).
  - destruct (UserDetailView_listed db request name) as [Hnil|(n & ku & _ & Hl)];
      rewrite ?Hnil, ?Hl in Hr; [by apply elem_of_nil in Hr|].
    apply page_slice_elem_of, elem_of_annotate in Hr as (r0 & _ & Hk & _ & Hc).
    by rewrite Hk.
Qed.

(** The rows of a category listing carry no comment count at all. *)
Lemma category_listing_not_annotated db now request category_slug r :
  r ∈ listed (CategoryPostsListView db now request category_slug) →
  comment_count r = None.
Proof.
  intros Hr.
  destruct (CategoryPostsListView_listed db now request category_slug)
    as [Hnil|(n & kc & _ & Hl)];
    rewrite ?Hnil, ?Hl in Hr; [by apply elem_of_nil in Hr|].
  by apply page_slice_elem_of, elem_of_CategoryPostsListView_queryset in Hr
    as (_ & _ & _ & _ & ?).
Qed.

(** C6 (the code departs from it). The claim has every listing annotate
    each post with its comment count.  [CategoryPostsListView.get_queryset]
    orders its posts but never calls [annotate]: on the sample database the
    two posts of the category "travel" come back without a comment count,
    while the index listing returns the same two posts with theirs. *)
Theorem category_listing_lacks_comment_count :
  comment_count <$>
    listed (CategoryPostsListView sample_db 500 (sample_request GET None) "travel")
  = [None; None]
  ∧ comment_count <$> listed (IndexListView 500 sample_db (sample_request GET None))
    = [Some 0; Some 2].
Proof. split; vm_compute; reflexivity. Qed.

(** ** Pagination of the listings *)

Lemma listed_at_most_page_size (shown qs : list PostRow) :
  shown = [] ∨ (∃ n, shown = page_slice qs POSTS_PER_PAGE n) →
  length shown ≤ 10.
Proof.
  intros [->|(n & ->)]; [simpl; lia|].
  apply (page_slice_length qs POSTS_PER_PAGE POSTS_PER_PAGE_pos).
Qed.

(** C7. Whatever page a request asks for, the page returned by the index,
    by a category listing and by a profile holds at most 10 rows; and over
    the page numbers 1 to [num_pages] the rows returned add up to the size
    of the view's query set (for the category listing when the category is
    found, for the profile when the user is found). *)
Theorem listing_pagination today db now request category_slug name :
  (length (listed (IndexListView today db request)) ≤ 10
   ∧ length (listed (CategoryPostsListView db now request category_slug)) ≤ 10
   ∧ length (listed (UserDetailView db request name)) ≤ 10)
  ∧ (method request = GET →
     sum_list_with
       (λ n, length (listed (IndexListView today db (with_page request (Z.of_nat n)))))
       (seq 1 (num_pages (IndexListView_queryset today db) POSTS_PER_PAGE))
     = length (IndexListView_queryset today db))
  ∧ (method request = GET →
     ∀ kc, get_published_category db category_slug = Return kc →
     sum_list_with
       (λ n, length (listed (CategoryPostsListView db now
                               (with_page request (Z.of_nat n)) category_slug)))
       (seq 1 (num_pages (CategoryPostsListView_get_queryset db now category_slug)
                 POSTS_PER_PAGE))
     = length (CategoryPostsListView_get_queryset db now category_slug))
  ∧ (method request = GET →
     ∀ ku, get_user_by_username db name = Return ku →
     sum_list_with
       (λ n, length (listed (UserDetailView db (with_page request (Z.of_nat n)) name)))
       (seq 1 (num_pages (user_posts db ku.1) POSTS_PER_PAGE))
     = length (user_posts db ku.1)).
Proof.
  split; [|split; [|split]].
  - split; [|split].
    + eapply listed_at_most_page_size, IndexListView_listed.
    + apply (listed_at_most_page_size _
               (CategoryPostsListView_get_queryset db now category_slug)).
      destruct (CategoryPostsListView_listed db now request category_slug)
        as [?|(n & _ & _ & ?)]; eauto.
    + destruct (UserDetailView_listed db request name) as [Hnil|(n & ku & _ & Hl)].
      * rewrite Hnil. simpl. lia.
      * rewrite Hl. apply (page_slice_length _ POSTS_PER_PAGE POSTS_PER_PAGE_pos).
  - intros Hget.
    rewrite <- (page_slice_all (IndexListView_queryset today db) POSTS_PER_PAGE
                  POSTS_PER_PAGE_pos).
    apply sum_pages. intros n Hn.
    rewrite IndexListView_page by (done || lia). simpl. do 2 f_equal. lia.
  - intros Hget kc Hkc.
    rewrite <- (page_slice_all (CategoryPostsListView_get_queryset db now category_slug)
                  POSTS_PER_PAGE POSTS_PER_PAGE_pos).
    apply sum_pages. intros n Hn.
    rewrite (CategoryPostsListView_page _ _ _ _ kc) by (done || lia).
    simpl. do 2 f_equal. lia.
  - intros Hget ku Hku.
    set (qs := annotate_comment_count db (order_by_pub_date_desc (user_posts db ku.1))).
    assert (length qs = length (user_posts db ku.1)) as Hlen.
    { unfold qs. by rewrite length_annotate, length_order_by. }
    assert (num_pages (user_posts db ku.1) POSTS_PER_PAGE = num_pages qs POSTS_PER_PAGE)
      as -> by (unfold num_pages, count; by rewrite Hlen).
    rewrite <- Hlen, <- (page_slice_all qs POSTS_PER_PAGE POSTS_PER_PAGE_pos).
    apply sum_pages. intros n Hn.
    rewrite (UserDetailView_page _ _ _ ku) by (done || fold qs; lia).
    simpl. do 2 f_equal. lia.
Qed.

Lemma listing_pagination_witness :
  sum_list_with
    (λ n, length (listed (IndexListView 500 sample_db
                            (with_page (sample_request GET None) (Z.of_nat n)))))
    (seq 1 (num_pages (IndexListView_queryset 500 sample_db) POSTS_PER_PAGE))
  = length (IndexListView_queryset 500 sample_db)
  ∧ sum_list_with
      (λ n, length (listed (UserDetailView sample_db
                              (with_page (sample_request GET None) (Z.of_nat n)) "bob")))
      (seq 1 (num_pages (user_posts sample_db 2) POSTS_PER_PAGE))
    = length (user_posts sample_db 2).
Proof.
  pose proof (listing_pagination 500 sample_db 500 (sample_request GET None)
                "travel" "bob") as (_ & Hindex & _ & Hprofile).
  split.
  - apply Hindex. reflexivity.
  - apply (Hprofile eq_refl (2, sample_user "bob")). vm_compute. reflexivity.
Defined.

(** ** The profile page *)

(** C8. The profile page lists every post of the profile's user, whoever
    asks (the request's user is arbitrary, anonymous included) and whatever
    the post's publication flag, category and date: each stored post of
    that user is on the page of some page number. *)
Theorem profile_lists_all_posts_of_user db request name ku post_id post :
  method request = GET →
  get_user_by_username db name = Return ku →
  posts db !! post_id = Some post →
  author post = ku.1 →
  ∃ (n : Z) page_obj r,
    UserDetailView db (with_page request n) name
    = render (profile_html ku.1 page_obj (user request))
    ∧ r ∈ object_list page_obj ∧ pk r = post_id ∧ fields r = post.
Proof.
  intros Hget Hku Hpost Hauthor.
  set (qs := annotate_comment_count db (order_by_pub_date_desc (user_posts db ku.1))).
  set (r := {| pk := post_id; fields := post;
               comment_count := Some (Count_comments db post_id) |}).
  assert (r ∈ qs) as Hr.
  { unfold qs. apply elem_of_annotate.
    exists {| pk := post_id; fields := post; comment_count := None |}.
    rewrite elem_of_order_by, elem_of_user_posts. done. }
  apply list_elem_of_lookup in Hr as [i Hi].
  destruct (page_slice_cover qs POSTS_PER_PAGE POSTS_PER_PAGE_pos i r Hi) as [Hlt Hin].
  assert (Z.to_nat (Z.of_nat (S (i / POSTS_PER_PAGE)) - 1) = i / POSTS_PER_PAGE)
    as Hn by lia.
  exists (Z.of_nat (S (i / POSTS_PER_PAGE))). eexists. exists r.
  split; [|split; [|done]].
  - apply UserDetailView_page; [done|done|]. fold qs. lia.
  - cbn [object_list]. fold qs. rewrite Hn. exact Hin.
Qed.

Lemma profile_lists_all_posts_of_user_witness :
  ∃ (n : Z) page_obj r,
    UserDetailView sample_db (with_page (sample_request GET (Some 1)) n) "bob"
    = render (profile_html 2 page_obj (Some 1))
    ∧ r ∈ object_list page_obj ∧ pk r = 4 ∧ fields r = sample_post 200 1 2 false.
Proof.
  apply (profile_lists_all_posts_of_user sample_db (sample_request GET (Some 1)) "bob"
           (2, sample_user "bob") 4 (sample_post 200 1 2 false)).
  - reflexivity.
  - vm_compute. reflexivity.
  - reflexivity.
  - reflexivity.
Defined.

(** ** The cutoff of the index *)

(** C9. The index listing compares [pub_date] with [today], the moment its
    class was defined, and with nothing else: a post dated after [today] is
    in no page of the index, for every request, however late the request
    comes and whatever the other fields of the post. *)
Theorem IndexListView_cutoff_is_class_definition_time today db request post_id post :
  posts db !! post_id = Some post →
  (today < pub_date post)%Z →
  post_id ∉ pk <$> listed (IndexListView today db request).
Proof.
  intros Hpost Hlate Hin.
  apply list_elem_of_fmap in Hin as (r & -> & Hr).
  destruct (IndexListView_listed today db request) as [Hnil|(n & Hl)];
    rewrite ?Hnil, ?Hl in Hr; [by apply elem_of_nil in Hr|].
  apply page_slice_elem_of, elem_of_IndexListView_queryset in Hr as (Hrow & Hd & _).
  rewrite Hpost in Hrow. injection Hrow as Heq. rewrite <- Heq in Hd. lia.
Qed.

Lemma IndexListView_cutoff_is_class_definition_time_witness :
  visible sample_db 500 (sample_post 300 1 2 true)
  ∧ 5 ∉ pk <$> listed (IndexListView 100 sample_db (sample_request GET None)).
Proof.
  split.
  - split; [reflexivity|]. split; [reflexivity|]. simpl. lia.
  - apply (IndexListView_cutoff_is_class_definition_time 100 sample_db
             (sample_request GET None) 5 (sample_post 300 1 2 true)).
    + reflexivity.
    + simpl. lia.
Defined.

(** ** Listing of an unpublished category *)

(** C10. The listing page of a category that is not published answers 404
    to every requester and for every page asked, whatever posts the
    database holds: the lookup of the category among the published ones
    finds nothing (no two categories share a slug). *)
Theorem unpublished_category_listing_not_found db now request k c :
  method request = GET →
  slugs_unique db →
  categories db !! k = Some c →
  category_is_published c = false →
  CategoryPostsListView db now request (slug c) = HttpResponseNotFound.
Proof.
  intros Hget Huniq Hk Hunpub.
  unfold CategoryPostsListView, View_dispatch_get, CategoryPostsListView_get_context_data.
  rewrite Hget.
  rewrite (get_published_category_unpublished db (slug c) k c) by done.
  destruct (paginate_queryset _ _ _) as [pg|e] eqn:Hpg; simpl; [done|].
  unfold paginate_queryset in Hpg.
  destruct (GET_page request); simpl in Hpg;
    repeat match type of Hpg with
      | context [page ?l ?n ?a] => destruct (page l n a)
      end; try discriminate; by injection Hpg as <-.
Qed.

Lemma unpublished_category_listing_not_found_witness :
  CategoryPostsListView sample_db 500 (sample_request GET (Some 2)) "drafts"
  = HttpResponseNotFound.
Proof.
  apply (unpublished_category_listing_not_found sample_db 500
           (sample_request GET (Some 2)) 2
           {| slug := "drafts"; category_is_published := false |}).
  - reflexivity.
  - exact sample_db_slugs_unique.
  - reflexivity.
  - reflexivity.
Defined.

(** ** Further properties of the pagination *)

Lemma page_slice_concat (l : list PostRow) per_page k :
  concat (page_slice l per_page <$> seq 0 k) = take (k * per_page) l.
Proof.
  induction k as [|k IH]; [done|].
  rewrite seq_S, fmap_app, concat_app, IH. simpl. rewrite app_nil_r.
  unfold page_slice. rewrite take_take_drop. f_equal. lia.
Qed.

Lemma page_slice_concat_all (l : list PostRow) per_page :
  0 < per_page →
  concat (page_slice l per_page <$> seq 0 (num_pages l per_page)) = l.
Proof.
  intros Hpos. rewrite page_slice_concat. apply take_ge.
  pose proof (num_pages_bounds l per_page Hpos). lia.
Qed.

Lemma concat_pages (f g : nat → list PostRow) k :
  (∀ n, n < k → f (S n) = g n) →
  concat (f <$> seq 1 k) = concat (g <$> seq 0 k).
Proof.
  induction k as [|k IH]; intros Hfg; [done|].
  rewrite !seq_S, !fmap_app, !concat_app, IH by (intros; apply Hfg; lia).
  simpl. rewrite Hfg by lia. done.
Qed.

(** The pages of a listing, taken in order of page number, are the query
    set of the view: no row dropped, none repeated, the order kept. *)
Theorem listing_pages_partition today db now request category_slug name :
  method request = GET →
  pages_in_order (λ n, IndexListView today db (with_page request n))
    (num_pages (IndexListView_queryset today db) POSTS_PER_PAGE)
  = IndexListView_queryset today db
  ∧ (∀ kc, get_published_category db category_slug = Return kc →
     pages_in_order
       (λ n, CategoryPostsListView db now (with_page request n) category_slug)
       (num_pages (CategoryPostsListView_get_queryset db now category_slug)
          POSTS_PER_PAGE)
     = CategoryPostsListView_get_queryset db now category_slug)
  ∧ (∀ ku, get_user_by_username db name = Return ku →
     pages_in_order (λ n, UserDetailView db (with_page request n) name)
       (num_pages (user_posts db ku.1) POSTS_PER_PAGE)
     = annotate_comment_count db (order_by_pub_date_desc (user_posts db ku.1))).
Proof.
  intros Hget. unfold pages_in_order. split; [|split].
  - rewrite <- (page_slice_concat_all (IndexListView_queryset today db) POSTS_PER_PAGE
                  POSTS_PER_PAGE_pos) at 2.
    apply concat_pages. intros n Hn.
    rewrite IndexListView_page by (done || lia). simpl. f_equal. lia.
  - intros kc Hkc.
    rewrite <- (page_slice_concat_all
                  (CategoryPostsListView_get_queryset db now category_slug)
                  POSTS_PER_PAGE POSTS_PER_PAGE_pos) at 2.
    apply concat_pages. intros n Hn.
    rewrite (CategoryPostsListView_page _ _ _ _ kc) by (done || lia).
    simpl. f_equal. lia.
  - intros ku Hku.
    set (qs := annotate_comment_count db (order_by_pub_date_desc (user_posts db ku.1))).
    assert (length qs = length (user_posts db ku.1)) as Hlen.
    { unfold qs. by rewrite length_annotate, length_order_by. }
    assert (num_pages (user_posts db ku.1) POSTS_PER_PAGE = num_pages qs POSTS_PER_PAGE)
      as -> by (unfold num_pages, count; by rewrite Hlen).
    rewrite <- (page_slice_concat_all qs POSTS_PER_PAGE POSTS_PER_PAGE_pos) at 2.
    apply concat_pages. intros n Hn.
    rewrite (UserDetailView_page _ _ _ ku) by (done || fold qs; lia).
    simpl. f_equal. lia.
Qed.

Lemma listing_pages_partition_witness :
  pages_in_order (λ n, IndexListView 500 sample_db (with_page (sample_request GET None) n))
    (num_pages (IndexListView_queryset 500 sample_db) POSTS_PER_PAGE)
  = IndexListView_queryset 500 sample_db.
Proof.
  apply (proj1 (listing_pages_partition 500 sample_db 500 (sample_request GET None)
                  "travel" "bob" eq_refl)).
Defined.

Lemma page_slice_full (l : list PostRow) per_page n :
  0 < per_page → S n < num_pages l per_page →
  length (page_slice l per_page n) = per_page.
Proof.
  intros Hpos Hn. pose proof (num_pages_bounds l per_page Hpos) as (_ & _ & Hlast).
  assert (S n * per_page ≤ (num_pages l per_page - 1) * per_page) as Hle
    by (apply Nat.mul_le_mono_r; lia).
  unfold page_slice. rewrite length_take, length_drop. simpl in Hle.
  generalize dependent ((num_pages l per_page - 1) * per_page).
  generalize (n * per_page). lia.
Qed.

Lemma page_slice_last (l : list PostRow) per_page :
  0 < per_page → l ≠ [] →
  0 < length (page_slice l per_page (num_pages l per_page - 1)).
Proof.
  intros Hpos Hne. pose proof (num_pages_bounds l per_page Hpos) as (_ & _ & Hlast).
  assert (0 < length l) by (destruct l; [done|simpl; lia]).
  unfold page_slice. rewrite length_take, length_drop. lia.
Qed.

(** Every page of the index and of a profile before the last holds exactly
    10 rows, and the last page holds at least one row unless the query set
    is empty (then there is the one, empty, page 1). *)
Theorem listing_pages_full today db request name ku (n : Z) :
  method request = GET →
  get_user_by_username db name = Return ku →
  let index := IndexListView_queryset today db in
  let profile := user_posts db ku.1 in
  ((1 ≤ n < Z.of_nat (num_pages index POSTS_PER_PAGE))%Z →
   length (listed (IndexListView today db (with_page request n))) = 10)
  ∧ (index ≠ [] →
     0 < length (listed (IndexListView today db
                   (with_page request (Z.of_nat (num_pages index POSTS_PER_PAGE))))))
  ∧ (index = [] → num_pages index POSTS_PER_PAGE = 1)
  ∧ ((1 ≤ n < Z.of_nat (num_pages profile POSTS_PER_PAGE))%Z →
     length (listed (UserDetailView db (with_page request n) name)) = 10)
  ∧ (profile ≠ [] →
     0 < length (listed (UserDetailView db
                   (with_page request (Z.of_nat (num_pages profile POSTS_PER_PAGE)))
                   name)))
  ∧ (profile = [] → num_pages profile POSTS_PER_PAGE = 1).
Proof.
  intros Hget Hku. cbv zeta.
  set (index := IndexListView_queryset today db).
  set (qs := annotate_comment_count db (order_by_pub_date_desc (user_posts db ku.1))).
  pose proof (num_pages_bounds index POSTS_PER_PAGE POSTS_PER_PAGE_pos) as (Hi1 & _ & _).
  assert (length qs = length (user_posts db ku.1)) as Hlen.
  { unfold qs. by rewrite length_annotate, length_order_by. }
  assert (num_pages (user_posts db ku.1) POSTS_PER_PAGE = num_pages qs POSTS_PER_PAGE)
    as Hnp by (unfold num_pages, count; by rewrite Hlen).
  rewrite !Hnp.
  pose proof (num_pages_bounds qs POSTS_PER_PAGE POSTS_PER_PAGE_pos) as (Hp1 & _ & _).
  split; [|split; [|split; [|split; [|split]]]].
  - intros Hn. unfold index. rewrite IndexListView_page by (done || fold index; lia).
    cbn [listed object_list]. apply (page_slice_full index POSTS_PER_PAGE); [apply POSTS_PER_PAGE_pos|lia].
  - intros Hne. unfold index at 1.
    rewrite IndexListView_page by (done || fold index; lia). cbn [listed object_list]. fold index.
    replace (Z.to_nat (Z.of_nat (num_pages index POSTS_PER_PAGE) - 1))
      with (num_pages index POSTS_PER_PAGE - 1) by lia.
    by apply page_slice_last; [apply POSTS_PER_PAGE_pos|].
  - intros ->. done.
  - intros Hn.
    rewrite (UserDetailView_page _ _ _ ku) by (done || fold qs; rewrite <- ?Hnp; lia).
    cbn [listed object_list]. apply (page_slice_full qs POSTS_PER_PAGE); [apply POSTS_PER_PAGE_pos|lia].
  - intros Hne.
    rewrite (UserDetailView_page _ _ _ ku) by (done || fold qs; rewrite <- ?Hnp; lia).
    cbn [listed object_list]. fold qs.
    replace (Z.to_nat (Z.of_nat (num_pages qs POSTS_PER_PAGE) - 1))
      with (num_pages qs POSTS_PER_PAGE - 1) by lia.
    apply page_slice_last; [apply POSTS_PER_PAGE_pos|].
    intros Hqs. apply Hne. destruct (user_posts db ku.1); [done|]. by rewrite Hqs in Hlen.
  - intros Hnil. unfold num_pages, count. by rewrite Hlen, Hnil.
Qed.

Lemma listing_pages_full_witness :
  0 < length (listed (UserDetailView sample_db
                (with_page (sample_request GET None)
                   (Z.of_nat (num_pages (user_posts sample_db 2) POSTS_PER_PAGE)))
                "bob")).
Proof.
  pose proof (listing_pages_full 500 sample_db (sample_request GET None) "bob"
                (2, sample_user "bob") 1 eq_refl) as Hfull.
  apply Hfull.
  - vm_compute. reflexivity.
  - vm_compute. discriminate.
Defined.

(** *** The [page] parameter *)

Lemma paginate_queryset_valid (l : list PostRow) per_page a :
  0 < per_page →
  page_arg_valid (num_pages l per_page) a →
  ∃ pg, paginate_queryset l per_page a = Return pg.
Proof.
  intros Hpos Hvalid. pose proof (num_pages_bounds l per_page Hpos) as (Hnp & _ & _).
  destruct a as [|n| |]; simpl in Hvalid; [| | |done].
  - exists {| object_list := page_slice l per_page (Z.to_nat (1 - 1)); number := 1 |}.
    apply (paginate_queryset_int_valid l per_page Hpos 1). lia.
  - eexists. by apply (paginate_queryset_int_valid l per_page Hpos n).
  - eexists. unfold paginate_queryset. simpl.
    rewrite page_int_valid by (done || lia). done.
Qed.

Lemma paginate_queryset_invalid (l : list PostRow) per_page a :
  ¬ page_arg_valid (num_pages l per_page) a →
  paginate_queryset l per_page a = Raise Http404.
Proof.
  intros Hinvalid. destruct a as [|n| |]; simpl in Hinvalid; try (by destruct Hinvalid).
  - unfold paginate_queryset, page, validate_number. simpl.
    destruct (Z.ltb_spec n 1); [done|].
    destruct (Z.ltb_spec (Z.of_nat (num_pages l per_page)) n); [done|]. lia.
  - done.
Qed.

(** How the index and a category listing read the [page] parameter of a
    GET request: absent, it is page 1; the word [last], the last page; a
    number outside 1..[num_pages], or any other text, gives 404; every
    other request for the index is rendered. *)
Theorem list_views_page_parameter today db now request category_slug :
  method request = GET →
  let index := num_pages (IndexListView_queryset today db) POSTS_PER_PAGE in
  let in_category :=
    num_pages (CategoryPostsListView_get_queryset db now category_slug)
      POSTS_PER_PAGE in
  (GET_page request = page_absent →
   IndexListView today db request = IndexListView today db (with_page request 1)
   ∧ CategoryPostsListView db now request category_slug
     = CategoryPostsListView db now (with_page request 1) category_slug)
  ∧ (GET_page request = page_last →
     IndexListView today db request
     = IndexListView today db (with_page request (Z.of_nat index))
     ∧ CategoryPostsListView db now request category_slug
       = CategoryPostsListView db now (with_page request (Z.of_nat in_category))
           category_slug)
  ∧ (¬ page_arg_valid index (GET_page request) →
     IndexListView today db request = HttpResponseNotFound)
  ∧ (¬ page_arg_valid in_category (GET_page request) →
     CategoryPostsListView db now request category_slug = HttpResponseNotFound)
  ∧ (page_arg_valid index (GET_page request) →
     ∃ page_obj, IndexListView today db request = render (index_html page_obj)).
Proof.
  intros Hget index in_category.
  unfold IndexListView, CategoryPostsListView, View_dispatch_get,
    CategoryPostsListView_get_context_data.
  simpl. rewrite Hget. split; [|split; [|split; [|split]]].
  - intros ->. done.
  - intros ->. done.
  - intros Hinvalid. by rewrite paginate_queryset_invalid.
  - intros Hinvalid. by rewrite paginate_queryset_invalid.
  - intros Hvalid.
    destruct (paginate_queryset_valid (IndexListView_queryset today db) POSTS_PER_PAGE
                (GET_page request) POSTS_PER_PAGE_pos Hvalid) as [pg ->].
    by exists pg.
Qed.

Lemma list_views_page_parameter_witness :
  IndexListView 500 sample_db
    {| method := GET; user := None; GET_page := page_int 2; POST_data := ∅ |}
  = HttpResponseNotFound.
Proof.
  apply (list_views_page_parameter 500 sample_db 500
           {| method := GET; user := None; GET_page := page_int 2; POST_data := ∅ |}
           "travel" eq_refl).
  vm_compute. intros [_ Hle]. apply Hle. reflexivity.
Defined.

(** A profile never answers 404 for its [page] parameter: for a user that
    is found, a GET request is rendered whatever the parameter; a number
    within range gives that page, a number out of range (zero and negative
    numbers included) the last page, and anything else page 1. *)
Theorem UserDetailView_page_parameter db request name ku :
  method request = GET →
  get_user_by_username db name = Return ku →
  let qs := annotate_comment_count db (order_by_pub_date_desc (user_posts db ku.1)) in
  let last := Z.of_nat (num_pages (user_posts db ku.1) POSTS_PER_PAGE) in
  let n := match GET_page request with
           | page_int n => if decide (1 ≤ n ≤ last)%Z then n else last
           | _ => 1%Z
           end in
  UserDetailView db request name
  = render (profile_html ku.1
      {| object_list := page_slice qs POSTS_PER_PAGE (Z.to_nat (n - 1)); number := n |}
      (user request)).
Proof.
  intros Hget Hku qs last n.
  assert (length qs = length (user_posts db ku.1)) as Hlen.
  { unfold qs. by rewrite length_annotate, length_order_by. }
  assert (num_pages (user_posts db ku.1) POSTS_PER_PAGE = num_pages qs POSTS_PER_PAGE)
    as Hnp by (unfold num_pages, count; by rewrite Hlen).
  pose proof (num_pages_bounds qs POSTS_PER_PAGE POSTS_PER_PAGE_pos) as (Hp1 & _ & _).
  unfold UserDetailView, View_dispatch_get, UserDetailView_get_context_data.
  rewrite Hget, Hku. simpl. fold qs.
  assert (get_page qs POSTS_PER_PAGE (GET_page request)
          = inr {| object_list := page_slice qs POSTS_PER_PAGE (Z.to_nat (n - 1));
                   number := n |}) as ->; [|done].
  unfold n, last. rewrite Hnp.
  destruct (GET_page request) as [|m| |].
  - unfold get_page. simpl. apply page_int_valid; [apply POSTS_PER_PAGE_pos|lia].
  - case_decide as Hm.
    + apply get_page_int_valid; [apply POSTS_PER_PAGE_pos|done].
    + unfold get_page, validate_number.
      destruct (Z.ltb_spec m 1).
      * apply page_int_valid; [apply POSTS_PER_PAGE_pos|lia].
      * destruct (Z.ltb_spec (Z.of_nat (num_pages qs POSTS_PER_PAGE)) m); [|lia].
        apply page_int_valid; [apply POSTS_PER_PAGE_pos|lia].
  - unfold get_page. simpl. apply page_int_valid; [apply POSTS_PER_PAGE_pos|lia].
  - unfold get_page. simpl. apply page_int_valid; [apply POSTS_PER_PAGE_pos|lia].
Qed.

Lemma UserDetailView_page_parameter_witness :
  ∃ page_obj,
    UserDetailView sample_db
      {| method := GET; user := None; GET_page := page_int 0; POST_data := ∅ |} "bob"
    = render (profile_html 2 page_obj None)
    ∧ number page_obj = 1%Z.
Proof.
  eexists. split.
  - apply (UserDetailView_page_parameter sample_db
             {| method := GET; user := None; GET_page := page_int 0; POST_data := ∅ |}
             "bob" (2, sample_user "bob") eq_refl).
    vm_compute. reflexivity.
  - vm_compute. reflexivity.
Defined.

(** ** What the listings contain *)

Lemma NoDup_pk_Post_objects db : NoDup (pk <$> Post_objects db).
Proof.
  unfold Post_objects. rewrite <- list_fmap_compose.
  rewrite (list_fmap_ext _ fst (map_to_list (posts db))) by done.
  apply NoDup_fst_map_to_list.
Qed.

Lemma NoDup_pk_filter (P : PostRow → Prop) `{∀ r, Decision (P r)} qs :
  NoDup (pk <$> qs) → NoDup (pk <$> filter P qs).
Proof.
  intros Hnd. apply (sublist_NoDup _ (pk <$> qs)); [exact Hnd|].
  apply fmap_sublist, sublist_filter.
Qed.

Lemma NoDup_pk_order_by qs :
  NoDup (pk <$> qs) → NoDup (pk <$> order_by_pub_date_desc qs).
Proof. unfold order_by_pub_date_desc. by rewrite merge_sort_Permutation. Qed.

Lemma pk_annotate db qs : pk <$> annotate_comment_count db qs = pk <$> qs.
Proof. unfold annotate_comment_count. by rewrite <- list_fmap_compose. Qed.

Lemma NoDup_pk_page_slice qs per_page n :
  NoDup (pk <$> qs) → NoDup (pk <$> page_slice qs per_page n).
Proof.
  intros Hnd. apply (sublist_NoDup _ (pk <$> qs)); [exact Hnd|]. apply fmap_sublist.
  unfold page_slice. etrans; [apply sublist_take|apply sublist_drop].
Qed.

(** No post comes twice in a listing: the primary keys of the query set of
    the index, of a category and of a profile are pairwise different, and
    so are those of any page returned. *)
Theorem listings_without_duplicates today db now request category_slug name u :
  NoDup (pk <$> IndexListView_queryset today db)
  ∧ NoDup (pk <$> CategoryPostsListView_get_queryset db now category_slug)
  ∧ NoDup (pk <$> annotate_comment_count db (order_by_pub_date_desc (user_posts db u)))
  ∧ NoDup (pk <$> listed (IndexListView today db request))
  ∧ NoDup (pk <$> listed (CategoryPostsListView db now request category_slug))
  ∧ NoDup (pk <$> listed (UserDetailView db request name)).
Proof.
  assert (NoDup (pk <$> IndexListView_queryset today db)) as Hindex.
  { unfold IndexListView_queryset. rewrite pk_annotate.
    apply NoDup_pk_order_by, NoDup_pk_filter, NoDup_pk_Post_objects. }
  assert (NoDup (pk <$> CategoryPostsListView_get_queryset db now category_slug))
    as Hcategory.
  { unfold CategoryPostsListView_get_queryset.
    apply NoDup_pk_order_by, NoDup_pk_filter, NoDup_pk_Post_objects. }
  assert (∀ v, NoDup (pk <$> annotate_comment_count db
                         (order_by_pub_date_desc (user_posts db v)))) as Hprofile.
  { intros v. rewrite pk_annotate. unfold user_posts.
    apply NoDup_pk_order_by, NoDup_pk_filter, NoDup_pk_Post_objects. }
  split; [done|]. split; [done|]. split; [done|]. split; [|split].
  - destruct (IndexListView_listed today db request) as [->|(n & ->)];
      [constructor|by apply NoDup_pk_page_slice].
  - destruct (CategoryPostsListView_listed db now request category_slug)
      as [->|(n & kc & _ & ->)]; [constructor|by apply NoDup_pk_page_slice].
  - destruct (UserDetailView_listed db request name) as [->|(n & ku & _ & ->)];
      [constructor|by apply NoDup_pk_page_slice].
Qed.

(** The index lists every post that passes its filter: a stored post that
    is published, in a published category and dated at or before [today]
    is on the page of some page number. *)
Theorem index_lists_every_visible_post today db request post_id post :
  method request = GET →
  posts db !! post_id = Some post →
  visible db today post →
  ∃ (n : Z) page_obj r,
    IndexListView today db (with_page request n) = render (index_html page_obj)
    ∧ r ∈ object_list page_obj ∧ pk r = post_id ∧ fields r = post.
Proof.
  intros Hget Hpost (Hp & Hc & Hd).
  set (qs := IndexListView_queryset today db).
  set (r := {| pk := post_id; fields := post;
               comment_count := Some (Count_comments db post_id) |}).
  assert (r ∈ qs) as Hr by (by apply elem_of_IndexListView_queryset).
  apply list_elem_of_lookup in Hr as [i Hi].
  destruct (page_slice_cover qs POSTS_PER_PAGE POSTS_PER_PAGE_pos i r Hi) as [Hlt Hin].
  assert (Z.to_nat (Z.of_nat (S (i / POSTS_PER_PAGE)) - 1) = i / POSTS_PER_PAGE)
    as Hn by lia.
  exists (Z.of_nat (S (i / POSTS_PER_PAGE))). eexists. exists r.
  split; [|split; [|done]].
  - apply IndexListView_page; [done|]. fold qs. lia.
  - cbn [object_list]. fold qs. rewrite Hn. exact Hin.
Qed.

Lemma index_lists_every_visible_post_witness :
  ∃ (n : Z) page_obj r,
    IndexListView 500 sample_db (with_page (sample_request GET None) n)
    = render (index_html page_obj)
    ∧ r ∈ object_list page_obj ∧ pk r = 5 ∧ fields r = sample_post 300 1 2 true.
Proof.
  apply (index_lists_every_visible_post 500 sample_db (sample_request GET None) 5
           (sample_post 300 1 2 true) eq_refl eq_refl).
  split; [reflexivity|]. split; [reflexivity|]. simpl. lia.
Defined.

(** A category listing lists every published post of its category dated at
    or before the request: when the category of the slug is found, such a
    post is on the page of some page number. *)
Theorem category_lists_every_visible_post db now request category_slug kc post_id post :
  method request = GET →
  get_published_category db category_slug = Return kc →
  posts db !! post_id = Some post →
  category post = kc.1 →
  is_published post = true →
  (pub_date post ≤ now)%Z →
  ∃ (n : Z) page_obj r,
    CategoryPostsListView db now (with_page request n) category_slug
    = render (category_html kc.1 page_obj)
    ∧ r ∈ object_list page_obj ∧ pk r = post_id ∧ fields r = post.
Proof.
  intros Hget Hkc Hpost Hcat Hp Hd. destruct kc as [k c].
  pose proof (get_published_category_Return _ _ _ _ Hkc) as (Hk & Hs & _).
  set (qs := CategoryPostsListView_get_queryset db now category_slug).
  set (r := {| pk := post_id; fields := post; comment_count := None |}).
  assert (r ∈ qs) as Hr.
  { apply elem_of_CategoryPostsListView_queryset. simpl. repeat split; try done.
    unfold category__slug. simpl in Hcat. rewrite Hcat, Hk. simpl. by rewrite Hs. }
  apply list_elem_of_lookup in Hr as [i Hi].
  destruct (page_slice_cover qs POSTS_PER_PAGE POSTS_PER_PAGE_pos i r Hi) as [Hlt Hin].
  assert (Z.to_nat (Z.of_nat (S (i / POSTS_PER_PAGE)) - 1) = i / POSTS_PER_PAGE)
    as Hn by lia.
  exists (Z.of_nat (S (i / POSTS_PER_PAGE))). eexists. exists r.
  split; [|split; [|done]].
  - apply (CategoryPostsListView_page _ _ _ _ (k, c)); [done|done|]. fold qs. lia.
  - cbn [object_list]. fold qs. rewrite Hn. exact Hin.
Qed.

Lemma category_lists_every_visible_post_witness :
  ∃ (n : Z) page_obj r,
    CategoryPostsListView sample_db 500 (with_page (sample_request GET None) n) "travel"
    = render (category_html 1 page_obj)
    ∧ r ∈ object_list page_obj ∧ pk r = 1 ∧ fields r = sample_post 100 1 1 true.
Proof.
  apply (category_lists_every_visible_post sample_db 500 (sample_request GET None)
           "travel" (1, {| slug := "travel"; category_is_published := true |})
           1 (sample_post 100 1 1 true) eq_refl).
  - vm_compute. reflexivity.
  - reflexivity.
  - reflexivity.
  - reflexivity.
  - simpl. lia.
Defined.

(** A profile lists posts of its user and no others: every row shown is a
    stored post whose author is the user of the profile. *)
Theorem profile_lists_only_posts_of_user db request name r :
  r ∈ listed (UserDetailView db request name) →
  ∃ ku, get_user_by_username db name = Return ku
    ∧ posts db !! pk r = Some (fields r)
    ∧ author (fields r) = ku.1.
Proof.
  intros Hr.
  destruct (UserDetailView_listed db request name) as [Hnil|(n & ku & Hku & Hl)];
    rewrite ?Hnil, ?Hl in Hr; [by apply elem_of_nil in Hr|].
  apply page_slice_elem_of, elem_of_annotate in Hr as (r0 & Hr0 & Hk & Hf & _).
  apply elem_of_order_by, elem_of_user_posts in Hr0 as (Hrow & Hauthor & _).
  exists ku. rewrite Hk, Hf. done.
Qed.

Lemma profile_lists_only_posts_of_user_witness :
  ∃ ku, get_user_by_username sample_db "bob" = Return ku
    ∧ posts sample_db !! 3 = Some (sample_post 50 2 2 true)
    ∧ author (sample_post 50 2 2 true) = ku.1.
Proof.
  apply (profile_lists_only_posts_of_user sample_db (sample_request GET None) "bob"
           {| pk := 3; fields := sample_post 50 2 2 true; comment_count := Some 0 |}).
  assert (listed (UserDetailView sample_db (sample_request GET None) "bob")
          = [{| pk := 5; fields := sample_post 300 1 2 true; comment_count := Some 0 |};
             {| pk := 4; fields := sample_post 200 1 2 false; comment_count := Some 0 |};
             {| pk := 3; fields := sample_post 50 2 2 true; comment_count := Some 0 |}])
    as -> by (vm_compute; reflexivity).
  apply elem_of_cons. right. apply elem_of_cons. right. apply elem_of_cons. by left.
Defined.

(** ** The detail page and the comments of a post *)

Lemma PostDetailView_super_dispatch_render db request post_id ctx :
  PostDetailView_super_dispatch db request post_id = Return (render ctx) →
  ctx = detail_html post_id (post_comments_of db post_id)
  ∧ is_Some (posts db !! post_id) ∧ method request = GET.
Proof.
  unfold PostDetailView_super_dispatch, View_dispatch_get, get_object_or_404.
  destruct (method request); [|done].
  destruct (posts db !! post_id) as [post|]; simpl; [|done].
  intros [= <-]. eauto.
Qed.

Lemma PostDetailView_render db now request post_id ctx :
  PostDetailView db now request post_id = render ctx →
  ctx = detail_html post_id (post_comments_of db post_id)
  ∧ is_Some (posts db !! post_id) ∧ method request = GET.
Proof.
  unfold PostDetailView, PostDetailView_dispatch, get_object_or_404.
  destruct (posts db !! post_id) as [post|]; simpl; [|done].
  destruct (PostDetailView_hidden db now post) as [[]|e]; simpl; [| |by destruct e].
  - case_decide; [|done].
    destruct (PostDetailView_super_dispatch db request post_id) as [r|e] eqn:Hs;
      simpl; [|by destruct e].
    intros ->. apply PostDetailView_super_dispatch_render in Hs as (? & _ & ?). eauto.
  - destruct (PostDetailView_super_dispatch db request post_id) as [r|e] eqn:Hs;
      simpl; [|by destruct e].
    intros ->. apply PostDetailView_super_dispatch_render in Hs as (? & _ & ?). eauto.
Qed.

(** Whenever the detail page of a post is rendered, the comments it shows
    are the stored comments whose post is that post, all of them and no
    others; and the comment count a row of the index or of a profile
    carries is the number of comments the detail page of its post shows. *)
Theorem detail_page_shows_comments_of_post today db now request name post_id ctx r :
  (PostDetailView db now request post_id = render ctx →
   ctx = detail_html post_id (post_comments_of db post_id)
   ∧ ∀ k c, (k, c) ∈ post_comments_of db post_id
            ↔ comments db !! k = Some c ∧ comment_post c = post_id)
  ∧ (r ∈ listed (IndexListView today db request)
     ∨ r ∈ listed (UserDetailView db request name) →
     comment_count r = Some (length (post_comments_of db (pk r)))).
Proof.
  split.
  - intros Hrender. apply PostDetailView_render in Hrender as (-> & _ & _).
    split; [done|]. intros k c. unfold post_comments_of.
    rewrite list_elem_of_filter, elem_of_map_to_list. simpl. tauto.
  - intros Hr.
    change (length (post_comments_of db (pk r))) with (Count_comments db (pk r)).
    destruct Hr as [Hr|Hr];
      by apply (index_and_profile_annotated today db request name r) in Hr.
Qed.

Lemma detail_page_shows_comments_of_post_witness :
  comment_count {| pk := 1; fields := sample_post 100 1 1 true; comment_count := Some 2 |}
  = Some (length (post_comments_of sample_db 1)).
Proof.
  apply (proj2 (detail_page_shows_comments_of_post 500 sample_db 500
                  (sample_request GET None) "alice" 1
                  (detail_html 1 (post_comments_of sample_db 1))
                  {| pk := 1; fields := sample_post 100 1 1 true;
                     comment_count := Some 2 |})).
  left.
  assert (listed (IndexListView 500 sample_db (sample_request GET None))
          = [{| pk := 5; fields := sample_post 300 1 2 true; comment_count := Some 0 |};
             {| pk := 1; fields := sample_post 100 1 1 true; comment_count := Some 2 |}])
    as -> by (vm_compute; reflexivity).
  apply elem_of_cons. right. apply elem_of_cons. by left.
Defined.

(** ** Rows that are not there *)

(** A primary key with no row gives 404 and leaves the database alone: for
    a missing post on the detail, update, delete and comment-creation
    views, whoever asks and with whatever verb; for a missing comment on
    the comment update and delete views, once the requester is logged
    in. *)
Theorem missing_row_not_found M db now request post_id comment_id :
  (posts db !! post_id = None →
   PostDetailView db now request post_id = HttpResponseNotFound
   ∧ PostUpdateView M db request post_id = (HttpResponseNotFound, db)
   ∧ PostDeleteView db request post_id = (HttpResponseNotFound, db)
   ∧ CommentCreateView M db request post_id = (HttpResponseNotFound, db))
  ∧ (comments db !! comment_id = None → user request ≠ None →
     CommentUpdateView M db request comment_id = (HttpResponseNotFound, db)
     ∧ CommentDeleteView db request comment_id = (HttpResponseNotFound, db)).
Proof.
  split.
  - intros Hnone.
    unfold PostDetailView, PostDetailView_dispatch, PostUpdateView, PostDeleteView,
      PostDispatchMixin_dispatch, CommentCreateView, get_object_or_404.
    by rewrite Hnone.
  - intros Hnone Huser. destruct (user request) as [u|] eqn:Hu; [|done].
    unfold CommentUpdateView, CommentDeleteView.
    rewrite !(LoginRequiredMixin_dispatch_user _ u) by done.
    unfold CommentMixin_dispatch, get_object_or_404. by rewrite Hnone.
Qed.

Lemma missing_row_not_found_witness :
  PostDetailView sample_db 500 (sample_request GET (Some 1)) 9 = HttpResponseNotFound
  ∧ CommentDeleteView sample_db (sample_request POST (Some 1)) 9
    = (HttpResponseNotFound, sample_db).
Proof.
  pose proof (missing_row_not_found sample_models sample_db 500
                (sample_request GET (Some 1)) 9 9) as [Hpost _].
  pose proof (missing_row_not_found sample_models sample_db 500
                (sample_request POST (Some 1)) 9 9) as [_ Hcomment].
  split.
  - apply Hpost. reflexivity.
  - apply Hcomment; [reflexivity|discriminate].
Defined.

(** ** Requests that change nothing *)

Ltac unfold_write_views :=
  unfold PostCreateView, PostUpdateView, PostDeleteView, CommentCreateView,
    CommentUpdateView, CommentDeleteView, UserEditUpdateView,
    PostDispatchMixin_dispatch, CommentMixin_dispatch, LoginRequiredMixin_dispatch,
    PostUpdateView_handler, PostDeleteView_handler, CommentUpdateView_handler,
    CommentDeleteView_handler, PostCreateView_form_valid,
    CommentCreateView_form_valid, respond_in, get_object_or_404.

(** An anonymous request never changes the database, on any of the seven
    views that write: post creation, update and deletion, comment creation,
    update and deletion, profile edit. *)
Theorem anonymous_request_changes_nothing M UserForm_clean db request
    post_id comment_id name :
  user request = None →
  (PostCreateView M db request).2 = db
  ∧ (PostUpdateView M db request post_id).2 = db
  ∧ (PostDeleteView db request post_id).2 = db
  ∧ (CommentCreateView M db request post_id).2 = db
  ∧ (CommentUpdateView M db request comment_id).2 = db
  ∧ (CommentDeleteView db request comment_id).2 = db
  ∧ (UserEditUpdateView UserForm_clean db request name).2 = db.
Proof.
  intros Hanon. unfold_write_views. rewrite Hanon.
  repeat split; simpl; repeat (case_match; simpl in *; simplify_eq); done.
Qed.

Lemma anonymous_request_changes_nothing_witness :
  (PostDeleteView sample_db (sample_request POST None) 1).2 = sample_db.
Proof.
  pose proof (anonymous_request_changes_nothing sample_models sample_UserForm_clean
                sample_db (sample_request POST None) 1 1 "bob" eq_refl)
    as (_ & _ & Hdelete & _).
  exact Hdelete.
Defined.

(** A GET request never changes the database, on any of the seven views
    that write, whoever sends it. *)
Theorem GET_request_changes_nothing M UserForm_clean db request
    post_id comment_id name :
  method request = GET →
  (PostCreateView M db request).2 = db
  ∧ (PostUpdateView M db request post_id).2 = db
  ∧ (PostDeleteView db request post_id).2 = db
  ∧ (CommentCreateView M db request post_id).2 = db
  ∧ (CommentUpdateView M db request comment_id).2 = db
  ∧ (CommentDeleteView db request comment_id).2 = db
  ∧ (UserEditUpdateView UserForm_clean db request name).2 = db.
Proof.
  intros Hget. unfold_write_views. rewrite Hget.
  destruct (get_user_by_username db name) as [ku|e].
  all: repeat split; simpl; repeat (case_match; simpl in *; simplify_eq); done.
Qed.

Lemma GET_request_changes_nothing_witness :
  (PostDeleteView sample_db (sample_request GET (Some 1)) 1).2 = sample_db.
Proof.
  pose proof (GET_request_changes_nothing sample_models sample_UserForm_clean
                sample_db (sample_request GET (Some 1)) 1 1 "bob" eq_refl)
    as (_ & _ & Hdelete & _).
  exact Hdelete.
Defined.

(** ** What an edit cannot touch *)

(** Whatever is submitted and by whom, the post update view leaves the
    author and the publication flag of the post as they were, every other
    post as it was, and the users, categories and comments untouched; the
    comment update view leaves the author and the post of the comment as
    they were, every other comment as it was, and the users, categories
    and posts untouched.  Neither view adds or removes a row. *)
Theorem update_views_keep_ownership M db request post_id comment_id :
  let after_post := (PostUpdateView M db request post_id).2 in
  let after_comment := (CommentUpdateView M db request comment_id).2 in
  (users after_post = users db ∧ categories after_post = categories db
   ∧ comments after_post = comments db
   ∧ (∀ k, k ≠ post_id → posts after_post !! k = posts db !! k)
   ∧ author <$> posts after_post !! post_id = author <$> posts db !! post_id
   ∧ is_published <$> posts after_post !! post_id
     = is_published <$> posts db !! post_id)
  ∧ (users after_comment = users db ∧ categories after_comment = categories db
     ∧ posts after_comment = posts db
     ∧ (∀ k, k ≠ comment_id → comments after_comment !! k = comments db !! k)
     ∧ comment_author <$> comments after_comment !! comment_id
       = comment_author <$> comments db !! comment_id
     ∧ comment_post <$> comments after_comment !! comment_id
       = comment_post <$> comments db !! comment_id).
Proof.
  cbv zeta. unfold_write_views. split.
  - destruct (posts db !! post_id) as [post|] eqn:Hpost; simpl;
      [|by rewrite Hpost].
    repeat (case_match; simpl in *; simplify_eq); simpl; repeat split; intros;
      rewrite ?lookup_insert_ne, ?lookup_insert_eq, ?Hpost by done; done.
  - destruct (user request) as [u|]; simpl; [|done].
    destruct (comments db !! comment_id) as [c|] eqn:Hc; simpl;
      [|by rewrite Hc].
    repeat (case_match; simpl in *; simplify_eq); simpl; repeat split; intros;
      rewrite ?lookup_insert_ne, ?lookup_insert_eq, ?Hc by done; done.
Qed.

(** ** Post creation *)

(** A post-creation POST by a logged-in user with a valid form redirects
    to the requester's profile and stores one new post: under a key that
    was unused, the resulting database holds a post with the requester as
    its author, the model's default publication flag and the six cleaned
    form fields; the posts already stored, the users, the categories and
    the comments are as they were.  The outcome depends on the submission
    only through the six fields of [PostForm]: a submitted [author] or
    [is_published] changes nothing. *)
Theorem PostCreateView_stamps_author M db request u usr cleaned :
  method request = POST →
  user request = Some u →
  users db !! u = Some usr →
  PostForm_clean M db (bound_data PostForm_fields (POST_data request)) = Some cleaned →
  let after := (PostCreateView M db request).2 in
  (PostCreateView M db request).1 = redirect (blog_profile (username usr))
  ∧ (∃ k, posts db !! k = None
       ∧ posts after !! k
         = Some {| title := cleaned_title cleaned; post_text := cleaned_text cleaned;
                   pub_date := cleaned_pub_date cleaned;
                   category := cleaned_category cleaned;
                   location := cleaned_location cleaned;
                   image := cleaned_image cleaned;
                   author := u; is_published := Post_is_published_default M |}
       ∧ (∀ j, j ≠ k → posts after !! j = posts db !! j))
  ∧ users after = users db ∧ categories after = categories db
  ∧ comments after = comments db
  ∧ (∀ data,
       (∀ f, f ∈ PostForm_fields → data !! f = POST_data request !! f) →
       PostCreateView M db (with_POST_data request data) = PostCreateView M db request).
Proof.
  intros Hpost Hu Husr Hclean. cbv zeta.
  assert (PostCreateView M db request
          = (redirect (blog_profile (username usr)),
             set_posts db (<[fresh (dom (posts db)) :=
               {| title := cleaned_title cleaned; post_text := cleaned_text cleaned;
                  pub_date := cleaned_pub_date cleaned;
                  category := cleaned_category cleaned;
                  location := cleaned_location cleaned;
                  image := cleaned_image cleaned;
                  author := u; is_published := Post_is_published_default M |}]>
               (posts db)))) as Hview.
  { unfold PostCreateView, LoginRequiredMixin_dispatch, PostCreateView_form_valid.
    by rewrite Hu, Hpost, Hclean, Husr. }
  split; [by rewrite Hview|].
  split; [|split; [by rewrite Hview|split; [by rewrite Hview|split; [by rewrite Hview|]]]].
  - rewrite Hview. cbn [snd posts set_posts].
    exists (fresh (dom (posts db))). split; [apply fresh_key_unused|]. split.
    + by rewrite lookup_insert_eq.
    + intros j Hj. by rewrite lookup_insert_ne.
  - intros data Hdata.
    unfold PostCreateView, LoginRequiredMixin_dispatch, with_POST_data.
    cbn [user method POST_data].
    assert (bound_data PostForm_fields data
            = bound_data PostForm_fields (POST_data request)) as ->; [|done].
    unfold bound_data. apply list_fmap_ext. intros i f Hf. apply Hdata.
    by apply list_elem_of_lookup_2 in Hf.
Qed.

Lemma PostCreateView_stamps_author_witness :
  ∃ k, posts sample_db !! k = None
    ∧ posts (PostCreateView sample_models sample_db
               {| method := POST; user := Some 2; GET_page := page_absent;
                  POST_data := sample_post_form |}).2 !! k
      = Some {| title := "a"; post_text := "b"; pub_date := 0; category := 1;
                location := None; image := ""; author := 2; is_published := true |}.
Proof.
  assert (PostForm_clean sample_models sample_db
            (bound_data PostForm_fields sample_post_form)
          = Some {| cleaned_title := "a"; cleaned_text := "b"; cleaned_pub_date := 0;
                    cleaned_category := 1; cleaned_location := None;
                    cleaned_image := "" |}) as Hclean by (vm_compute; reflexivity).
  destruct (PostCreateView_stamps_author sample_models sample_db
              {| method := POST; user := Some 2; GET_page := page_absent;
                 POST_data := sample_post_form |}
              2 (sample_user "bob") _ eq_refl eq_refl eq_refl Hclean)
    as (_ & (k & Hfree & Hrow & _) & _).
  exists k. split; [exact Hfree|exact Hrow].
Defined.

(** ** Comments and the comment count *)

Lemma Count_comments_insert db k c post_id :
  comments db !! k = None →
  Count_comments (set_comments db (<[k := c]> (comments db))) post_id
  = (if decide (comment_post c = post_id) then 1 else 0) + Count_comments db post_id.
Proof.
  intros Hk. unfold Count_comments. simpl.
  rewrite (map_to_list_insert (comments db) k c Hk).
  rewrite filter_cons. simpl. by case_decide.
Qed.

Lemma Count_comments_delete db k c post_id :
  comments db !! k = Some c →
  (if decide (comment_post c = post_id) then 1 else 0)
  + Count_comments (set_comments db (delete k (comments db))) post_id
  = Count_comments db post_id.
Proof.
  intros Hk. unfold Count_comments. simpl.
  rewrite <- (map_to_list_delete (comments db) k c Hk).
  rewrite filter_cons. simpl. by case_decide.
Qed.

(** A stored comment shows in the counts: after a valid comment-creation
    POST by a logged-in user on an existing post, the comment count of that
    post is one more than before and the count of every other post is what
    it was. *)
Theorem comment_creation_raises_count M db request u post_id post cleaned :
  method request = POST →
  user request = Some u →
  posts db !! post_id = Some post →
  CommentForm_clean M (bound_data CommentForm_fields (POST_data request))
  = Some cleaned →
  let after := (CommentCreateView M db request post_id).2 in
  Count_comments after post_id = S (Count_comments db post_id)
  ∧ ∀ other, other ≠ post_id → Count_comments after other = Count_comments db other.
Proof.
  intros Hmethod Hu Hpost Hclean. cbv zeta.
  unfold CommentCreateView, get_object_or_404, LoginRequiredMixin_dispatch,
    CommentCreateView_form_valid.
  unfold bound_data, CommentForm_fields in Hclean. simpl in Hclean.
  rewrite Hpost. simpl. rewrite Hu, Hmethod, Hclean. simpl.
  split.
  - rewrite Count_comments_insert by apply fresh_key_unused. simpl.
    by rewrite decide_True.
  - intros other Hother. rewrite Count_comments_insert by apply fresh_key_unused.
    simpl. by rewrite decide_False.
Qed.

Lemma comment_creation_raises_count_witness :
  Count_comments
    (CommentCreateView sample_models sample_db
       {| method := POST; user := Some 2; GET_page := page_absent;
          POST_data := <["text" := "hey"]> ∅ |} 1).2 1
  = S (Count_comments sample_db 1).
Proof.
  refine (proj1 (comment_creation_raises_count sample_models sample_db
           {| method := POST; user := Some 2; GET_page := page_absent;
              POST_data := <["text" := "hey"]> ∅ |}
           2 1 (sample_post 100 1 1 true) "hey" eq_refl eq_refl eq_refl _)).
  vm_compute. reflexivity.
Defined.

(** A deleted comment leaves the counts: after the author's POST to the
    comment delete view the comment is gone, the comment count of its post
    is one less than before, the count of every other post is what it was,
    and posts, users and categories are untouched. *)
Theorem comment_deletion_lowers_count db request comment_id c :
  method request = POST →
  comments db !! comment_id = Some c →
  user request = Some (comment_author c) →
  let after := (CommentDeleteView db request comment_id).2 in
  comments after !! comment_id = None
  ∧ S (Count_comments after (comment_post c)) = Count_comments db (comment_post c)
  ∧ (∀ other, other ≠ comment_post c →
       Count_comments after other = Count_comments db other)
  ∧ posts after = posts db ∧ users after = users db
  ∧ categories after = categories db.
Proof.
  intros Hmethod Hc Hu. cbv zeta. unfold CommentDeleteView.
  rewrite (LoginRequiredMixin_dispatch_user _ (comment_author c)) by done.
  rewrite (CommentMixin_dispatch_author _ _ _ c) by done.
  unfold CommentDeleteView_handler, get_object_or_404. rewrite Hc, Hmethod. simpl.
  split; [apply lookup_delete_eq|]. split; [|split; [|done]].
  - rewrite <- (Count_comments_delete db comment_id c (comment_post c) Hc).
    by rewrite decide_True.
  - intros other Hother.
    rewrite <- (Count_comments_delete db comment_id c other Hc).
    by rewrite decide_False.
Qed.

Lemma comment_deletion_lowers_count_witness :
  S (Count_comments (CommentDeleteView sample_db (sample_request POST (Some 2)) 1).2 1)
  = Count_comments sample_db 1.
Proof.
  apply (comment_deletion_lowers_count sample_db (sample_request POST (Some 2)) 1
           {| comment_text := "first"; comment_author := 2; comment_post := 1 |}
           eq_refl eq_refl eq_refl).
Defined.

(** ** Deleting a post *)

Lemma listed_rows_are_stored today db now request category_slug name r :
  r ∈ listed (IndexListView today db request)
  ∨ r ∈ listed (CategoryPostsListView db now request category_slug)
  ∨ r ∈ listed (UserDetailView db request name) →
  posts db !! pk r = Some (fields r).
Proof.
  intros [Hr|[Hr|Hr]].
  - destruct (IndexListView_listed today db request) as [Hnil|(n & Hl)];
      rewrite ?Hnil, ?Hl in Hr; [by apply elem_of_nil in Hr|].
    by apply page_slice_elem_of, elem_of_IndexListView_queryset in Hr as (? & _).
  - destruct (CategoryPostsListView_listed db now request category_slug)
      as [Hnil|(n & kc & _ & Hl)];
      rewrite ?Hnil, ?Hl in Hr; [by apply elem_of_nil in Hr|].
    by apply page_slice_elem_of, elem_of_CategoryPostsListView_queryset in Hr
      as (? & _).
  - destruct (UserDetailView_listed db request name) as [Hnil|(n & ku & _ & Hl)];
      rewrite ?Hnil, ?Hl in Hr; [by apply elem_of_nil in Hr|].
    apply page_slice_elem_of, elem_of_annotate in Hr as (r0 & Hr0 & Hk & Hf & _).
    apply elem_of_order_by, elem_of_user_posts in Hr0 as (Hrow & _).
    by rewrite Hk, Hf.
Qed.

(** Once its author has deleted a post with a POST to the delete view, the
    post is gone for everybody: its detail page answers 404 to every
    request, the author's included, and no page of the index, of a
    category or of a profile lists it; the other posts, the users and the
    categories are as before. *)
Theorem deleted_post_is_gone db request post_id post :
  method request = POST →
  posts db !! post_id = Some post →
  user request = Some (author post) →
  let after := (PostDeleteView db request post_id).2 in
  posts after !! post_id = None
  ∧ (∀ k, k ≠ post_id → posts after !! k = posts db !! k)
  ∧ users after = users db ∧ categories after = categories db
  ∧ (∀ now' request', PostDetailView after now' request' post_id = HttpResponseNotFound)
  ∧ (∀ today now' request' category_slug name,
       (post_id ∉ pk <$> listed (IndexListView today after request'))
       ∧ (post_id ∉ pk <$> listed (CategoryPostsListView after now' request'
                                     category_slug))
       ∧ (post_id ∉ pk <$> listed (UserDetailView after request' name))).
Proof.
  intros Hmethod Hpost Hu. cbv zeta. unfold PostDeleteView.
  rewrite (PostDispatchMixin_dispatch_author _ _ _ post) by done.
  rewrite (LoginRequiredMixin_dispatch_user _ (author post)) by done.
  unfold PostDeleteView_handler, get_object_or_404. rewrite Hpost, Hmethod. simpl.
  assert (posts (delete_post db post_id) !! post_id = None) as Hgone
    by apply lookup_delete_eq.
  split; [done|]. split; [|split; [done|split; [done|split]]].
  - intros k Hk. simpl. by rewrite lookup_delete_ne.
  - intros now' request'.
    unfold PostDetailView, PostDetailView_dispatch, get_object_or_404.
    by rewrite Hgone.
  - intros today now' request' category_slug name.
    assert (∀ r, r ∈ listed (IndexListView today (delete_post db post_id) request')
                 ∨ r ∈ listed (CategoryPostsListView (delete_post db post_id) now'
                                 request' category_slug)
                 ∨ r ∈ listed (UserDetailView (delete_post db post_id) request' name) →
                 pk r ≠ post_id) as Hstored.
    { intros r Hr Hk. apply listed_rows_are_stored in Hr. congruence. }
    repeat split; intros Hin; apply list_elem_of_fmap in Hin as (r & Hk & Hr);
      apply (Hstored r); auto.
Qed.

Lemma deleted_post_is_gone_witness :
  PostDetailView (PostDeleteView sample_db (sample_request POST (Some 1)) 1).2 500
    (sample_request GET (Some 1)) 1
  = HttpResponseNotFound.
Proof.
  pose proof (deleted_post_is_gone sample_db (sample_request POST (Some 1)) 1
                (sample_post 100 1 1 true) eq_refl eq_refl eq_refl)
    as (_ & _ & _ & _ & Hdetail & _).
  apply Hdetail.
Defined.

(** ** Profile edit *)

Lemma get_only_match {A} (P : A → Prop) `{∀ x, Decision (P x)} (l : list A) x :
  NoDup l → x ∈ l → P x → (∀ y, y ∈ l → P y → y = x) →
  get (filter P l) = Return x.
Proof.
  intros Hnd Hx HPx Hall.
  assert (x ∈ filter P l) as Hin by (by apply list_elem_of_filter).
  assert (∀ y, y ∈ filter P l → y = x) as Hsame.
  { intros y Hy. apply list_elem_of_filter in Hy as [? ?]. by apply Hall. }
  assert (NoDup (filter P l)) as Hnd' by (by apply NoDup_filter).
  destruct (filter P l) as [|a [|b rest]].
  - by apply elem_of_nil in Hin.
  - simpl. f_equal. apply Hsame, elem_of_cons. by left.
  - exfalso. apply NoDup_cons in Hnd' as [Hab _]. apply Hab.
    rewrite (Hsame a) by (apply elem_of_cons; by left).
    rewrite <- (Hsame b) at 1 by (apply elem_of_cons; right; apply elem_of_cons; by left).
    apply elem_of_cons. by left.
Qed.

Lemma UserDetailView_renders db request name ku :
  method request = GET →
  get_user_by_username db name = Return ku →
  ∃ page_obj,
    UserDetailView db request name = render (profile_html ku.1 page_obj (user request))
    ∧ ∀ r, r ∈ object_list page_obj →
           posts db !! pk r = Some (fields r) ∧ author (fields r) = ku.1.
Proof.
  intros Hget Hku.
  unfold UserDetailView, View_dispatch_get, UserDetailView_get_context_data.
  rewrite Hget, Hku. simpl.
  destruct (get_page_inr (annotate_comment_count db
              (order_by_pub_date_desc (user_posts db ku.1)))
              POSTS_PER_PAGE POSTS_PER_PAGE_pos (GET_page request)) as (n & _ & ->).
  eexists. split; [done|]. cbn [object_list]. intros r Hr.
  apply page_slice_elem_of, elem_of_annotate in Hr as (r0 & Hr0 & Hk & Hf & _).
  apply elem_of_order_by, elem_of_user_posts in Hr0 as (Hrow & Hauthor & _).
  by rewrite Hk, Hf.
Qed.

(** The profile edit view checks that the requester is logged in and
    nothing more: a valid POST by any logged-in user [u] redirects to the
    profile of the username [u] had when the request came in, and in the
    resulting database the user named in the URL, whoever that is, has the
    cleaned profile fields under the same key; every other user, the
    posts, the comments and the categories are as they were.  When no
    other user has the new username, the profile page of the new username
    is then rendered for that user, to every viewer, and lists stored
    posts of that user only. *)
Theorem UserEditUpdateView_edits_named_user UserForm_clean db request name u usr ku
    cleaned :
  method request = POST →
  user request = Some u →
  users db !! u = Some usr →
  get_user_by_username db name = Return ku →
  UserForm_clean db ku.1 (bound_data UserEditUpdateView_fields (POST_data request))
  = Some cleaned →
  let after := (UserEditUpdateView UserForm_clean db request name).2 in
  (UserEditUpdateView UserForm_clean db request name).1
  = redirect (blog_profile (username usr))
  ∧ users after !! ku.1 = Some cleaned
  ∧ (∀ k, k ≠ ku.1 → users after !! k = users db !! k)
  ∧ posts after = posts db ∧ comments after = comments db
  ∧ categories after = categories db
  ∧ ((∀ k other, users db !! k = Some other → k ≠ ku.1 →
                 username other ≠ username cleaned) →
     ∀ viewer, method viewer = GET →
     ∃ page_obj,
       UserDetailView after viewer (username cleaned)
       = render (profile_html ku.1 page_obj (user viewer))
       ∧ ∀ r, r ∈ object_list page_obj →
              posts db !! pk r = Some (fields r) ∧ author (fields r) = ku.1).
Proof.
  intros Hmethod Hu Husr Hku Hclean. cbv zeta.
  assert (UserEditUpdateView UserForm_clean db request name
          = (redirect (blog_profile (username usr)),
             set_users db (<[ku.1 := cleaned]> (users db)))) as ->.
  { unfold UserEditUpdateView, LoginRequiredMixin_dispatch,
      UserEditUpdateView_get_success_url.
    rewrite Hu, Hku. cbn [mbind outcome_bind respond_in].
    by rewrite Hmethod, Hclean, Husr. }
  cbn [fst snd]. split; [done|].
  assert (users (set_users db (<[ku.1 := cleaned]> (users db))) !! ku.1 = Some cleaned)
    as Hrow by (cbn [users set_users]; by rewrite lookup_insert_eq).
  split; [exact Hrow|]. split; [|split; [done|split; [done|split; [done|]]]].
  - intros k Hk. cbn [users set_users]. by rewrite lookup_insert_ne.
  - intros Hfree viewer Hviewer.
    set (after := set_users db (<[ku.1 := cleaned]> (users db))).
    assert (get_user_by_username after (username cleaned) = Return (ku.1, cleaned))
      as Hfound.
    { unfold get_user_by_username.
      apply (get_only_match (λ kv : nat * User, username kv.2 = username cleaned)).
      - apply NoDup_map_to_list.
      - by apply elem_of_map_to_list.
      - done.
      - intros [k other] Hin Hname. apply elem_of_map_to_list in Hin.
        simpl in Hname. unfold after in Hin.
        destruct (decide (k = ku.1)) as [->|Hk].
        + rewrite Hrow in Hin. by injection Hin as <-.
        + exfalso. apply (Hfree k other); [|done|done].
          cbn [users set_users] in Hin. by rewrite lookup_insert_ne in Hin. }
    destruct (UserDetailView_renders after viewer (username cleaned) (ku.1, cleaned)
                Hviewer Hfound) as (page_obj & Hrender & Hrows).
    exists page_obj. split; [exact Hrender|]. exact Hrows.
Qed.

Lemma UserEditUpdateView_edits_named_user_witness :
  users (UserEditUpdateView sample_UserForm_clean sample_db
           {| method := POST; user := Some 1; GET_page := page_absent;
              POST_data := sample_profile_form |} "bob").2 !! 2
  = Some {| username := "carol"; first_name := "C"; last_name := "D";
            email := "carol@example.com" |}.
Proof.
  assert (get_user_by_username sample_db "bob" = Return (2, sample_user "bob")) as Hbob
    by (vm_compute; reflexivity).
  assert (sample_UserForm_clean sample_db 2
            (bound_data UserEditUpdateView_fields sample_profile_form)
          = Some {| username := "carol"; first_name := "C"; last_name := "D";
                    email := "carol@example.com" |}) as Hclean
    by (vm_compute; reflexivity).
  destruct (UserEditUpdateView_edits_named_user sample_UserForm_clean sample_db
              {| method := POST; user := Some 1; GET_page := page_absent;
                 POST_data := sample_profile_form |} "bob" 1 (sample_user "alice")
              (2, sample_user "bob") _ eq_refl eq_refl eq_refl Hbob Hclean)
    as (_ & Hrow & _).
  exact Hrow.
Defined.

Lemma get_user_by_username_unknown db name :
  (∀ k usr, users db !! k = Some usr → username usr ≠ name) →
  get_user_by_username db name = Raise Http404.
Proof.
  intros Hnone. unfold get_user_by_username.
  replace (filter _ (map_to_list (users db))) with (@nil (nat * User)); [done|].
  symmetry. apply elem_of_nil_inv. intros [k usr] Hin.
  apply list_elem_of_filter in Hin as [Hname Hin]. simpl in Hname.
  apply elem_of_map_to_list in Hin. by apply (Hnone k usr).
Qed.

(** A username that no user has gives 404: on the profile page for every
    GET request, and on the profile edit view for every logged-in
    requester, with the database unchanged. *)
Theorem unknown_username_not_found UserForm_clean db request name :
  (∀ k usr, users db !! k = Some usr → username usr ≠ name) →
  (method request = GET → UserDetailView db request name = HttpResponseNotFound)
  ∧ (user request ≠ None →
     UserEditUpdateView UserForm_clean db request name = (HttpResponseNotFound, db)).
Proof.
  intros Hnone. apply get_user_by_username_unknown in Hnone. split.
  - intros Hget. unfold UserDetailView, View_dispatch_get. by rewrite Hget, Hnone.
  - intros Huser. destruct (user request) as [u|] eqn:Hu; [|done].
    unfold UserEditUpdateView, LoginRequiredMixin_dispatch. by rewrite Hu, Hnone.
Qed.

Lemma unknown_username_not_found_witness :
  UserDetailView sample_db (sample_request GET None) "zed" = HttpResponseNotFound.
Proof.
  apply (unknown_username_not_found sample_UserForm_clean sample_db
           (sample_request GET None) "zed").
  - intros k usr Hk Hname.
    assert ((k, usr) ∈ filter (λ ku : nat * User, username ku.2 = "zed")
                          (map_to_list (users sample_db))) as Hin.
    { apply list_elem_of_filter. split; [done|]. by apply elem_of_map_to_list. }
    assert (filter (λ ku : nat * User, username ku.2 = "zed")
              (map_to_list (users sample_db)) = []) as Hnil by (vm_compute; reflexivity).
    rewrite Hnil in Hin. by apply elem_of_nil in Hin.
  - reflexivity.
Defined.

(** ** No server errors from the pages *)

Lemma paginate_queryset_Raise (l : list PostRow) per_page a e :
  paginate_queryset l per_page a = Raise e → e = Http404.
Proof.
  unfold paginate_queryset.
  destruct a; simpl; try congruence;
    match goal with
    | |- context [page ?l ?n ?b] => destruct (page l n b)
    end; congruence.
Qed.

Lemma filter_unique {A B} (f : A → B) (P : A → Prop) `{∀ x, Decision (P x)}
    (l : list A) v :
  NoDup (f <$> l) → (∀ x, P x → f x = v) → length (filter P l) ≤ 1.
Proof.
  intros Hnd HP. induction l as [|a l IH]; [simpl; lia|].
  simpl in Hnd. apply NoDup_cons in Hnd as [Ha Hnd].
  rewrite filter_cons. destruct (decide (P a)) as [Hpa|]; [|by apply IH].
  replace (filter P l) with (@nil A); [simpl; lia|].
  symmetry. apply elem_of_nil_inv. intros x Hx.
  apply list_elem_of_filter in Hx as [Hpx Hx]. apply Ha.
  rewrite (HP a Hpa), <- (HP x Hpx). by apply list_elem_of_fmap_2.
Qed.

Lemma get_at_most_one {A} (l : list A) e :
  length l ≤ 1 → get l = Raise e → e = Http404.
Proof. destruct l as [|a [|b l]]; simpl; intros; [congruence|congruence|lia]. Qed.

(** The four pages never answer with a server error (500) on a database
    that keeps its keys: the index unconditionally, a category listing
    when no two categories share a slug, a profile when no two users share
    a username, and the detail page of a post whose category row exists. *)
Theorem pages_never_fail today db now request category_slug name post_id :
  status_code (IndexListView today db request) ≠ 500
  ∧ (slugs_unique db →
     status_code (CategoryPostsListView db now request category_slug) ≠ 500)
  ∧ (usernames_unique db → status_code (UserDetailView db request name) ≠ 500)
  ∧ ((∀ post, posts db !! post_id = Some post →
               is_Some (categories db !! category post)) →
     status_code (PostDetailView db now request post_id) ≠ 500).
Proof.
  split; [|split; [|split]].
  - unfold IndexListView, View_dispatch_get.
    destruct (method request); [|done].
    destruct (paginate_queryset _ _ _) as [pg|e] eqn:Hpg; simpl; [done|].
    by apply paginate_queryset_Raise in Hpg as ->.
  - intros Huniq.
    unfold CategoryPostsListView, View_dispatch_get,
      CategoryPostsListView_get_context_data.
    destruct (method request); [|done].
    destruct (paginate_queryset _ _ _) as [pg|e] eqn:Hpg; simpl;
      [|by apply paginate_queryset_Raise in Hpg as ->].
    destruct (get_published_category db category_slug) as [kc|e] eqn:Hcat; simpl;
      [done|].
    unfold get_published_category in Hcat. apply get_at_most_one in Hcat as ->; [done|].
    apply (filter_unique (λ kc : nat * Category, slug kc.2) _ _ category_slug);
      [exact Huniq|]. by intros x [? _].
  - intros Huniq. unfold UserDetailView, View_dispatch_get,
      UserDetailView_get_context_data.
    destruct (method request); [|done].
    destruct (get_user_by_username db name) as [ku|e] eqn:Hku; simpl.
    + destruct (get_page_inr (annotate_comment_count db
                  (order_by_pub_date_desc (user_posts db ku.1)))
                  POSTS_PER_PAGE POSTS_PER_PAGE_pos (GET_page request)) as (n & _ & ->).
      done.
    + unfold get_user_by_username in Hku. apply get_at_most_one in Hku as ->; [done|].
      by apply (filter_unique (λ ku : nat * User, username ku.2) _ _ name).
  - intros Hfk. unfold PostDetailView, PostDetailView_dispatch, get_object_or_404.
    destruct (posts db !! post_id) as [post|] eqn:Hpost; simpl; [|done].
    destruct (Hfk post eq_refl) as [c Hc].
    assert (∀ r, PostDetailView_super_dispatch db request post_id ≠ Raise r) as Hsuper.
    { intros r. unfold PostDetailView_super_dispatch, View_dispatch_get, get_object_or_404.
      rewrite Hpost. by destruct (method request). }
    unfold PostDetailView_hidden, related_category. rewrite Hc.
    destruct (PostDetailView_super_dispatch db request post_id) as [resp|e] eqn:Hs;
      [|by destruct (Hsuper e)].
    assert (status_code resp ≠ 500) as Hresp.
    { unfold PostDetailView_super_dispatch, View_dispatch_get, get_object_or_404 in Hs.
      rewrite Hpost in Hs. destruct (method request); simpl in Hs;
        injection Hs as <-; done. }
    destruct (is_published post), (category_is_published c),
      (bool_decide (pub_date post ≤ now)%Z); simpl; repeat case_match; simpl; done.
Qed.

Lemma sample_db_usernames_unique : usernames_unique sample_db.
Proof. unfold usernames_unique. apply (bool_decide_unpack _). vm_compute. exact I. Defined.

Lemma pages_never_fail_witness :
  status_code (UserDetailView sample_db (sample_request GET None) "bob") ≠ 500
  ∧ status_code (CategoryPostsListView sample_db 500 (sample_request GET None) "drafts")
    ≠ 500.
Proof.
  pose proof (pages_never_fail 500 sample_db 500 (sample_request GET None)
                "drafts" "bob" 1) as (_ & Hcategory & Hprofile & _).
  split.
  - apply Hprofile. exact sample_db_usernames_unique.
  - apply Hcategory. exact sample_db_slugs_unique.
Defined.

(** ** What follows a creation *)

Lemma queryset_row_on_some_page (qs : list PostRow) r :
  r ∈ qs →
  ∃ n : Z, (1 ≤ n ≤ Z.of_nat (num_pages qs POSTS_PER_PAGE))%Z
    ∧ r ∈ page_slice qs POSTS_PER_PAGE (Z.to_nat (n - 1)).
Proof.
  intros Hr. apply list_elem_of_lookup in Hr as [i Hi].
  destruct (page_slice_cover qs POSTS_PER_PAGE POSTS_PER_PAGE_pos i r Hi) as [Hlt Hin].
  exists (Z.of_nat (S (i / POSTS_PER_PAGE))). split; [lia|].
  by replace (Z.to_nat (Z.of_nat (S (i / POSTS_PER_PAGE)) - 1))
    with (i / POSTS_PER_PAGE) by lia.
Qed.

(** The comment just stored is on the page its author is sent to: after a
    valid comment-creation POST the comments of the post, which every
    rendering of its detail page shows, include the new comment with the
    requester as author. *)
Theorem created_comment_shows_on_detail_page M db request u post_id post cleaned :
  method request = POST →
  user request = Some u →
  posts db !! post_id = Some post →
  CommentForm_clean M (bound_data CommentForm_fields (POST_data request))
  = Some cleaned →
  let after := (CommentCreateView M db request post_id).2 in
  (CommentCreateView M db request post_id).1 = redirect (blog_post_detail post_id)
  ∧ (∃ k, comments db !! k = None
       ∧ (k, {| comment_text := cleaned; comment_author := u;
                comment_post := post_id |}) ∈ post_comments_of after post_id)
  ∧ (∀ now request' ctx,
       PostDetailView after now request' post_id = render ctx →
       ctx = detail_html post_id (post_comments_of after post_id)).
Proof.
  intros Hmethod Hu Hpost Hclean. cbv zeta. split; [|split].
  - unfold CommentCreateView, get_object_or_404, LoginRequiredMixin_dispatch,
      CommentCreateView_form_valid.
    unfold bound_data, CommentForm_fields in Hclean. simpl in Hclean.
    rewrite Hpost. simpl. by rewrite Hu, Hmethod, Hclean.
  - exists (fresh (dom (comments db))). split; [apply fresh_key_unused|].
    unfold CommentCreateView, get_object_or_404, LoginRequiredMixin_dispatch,
      CommentCreateView_form_valid.
    unfold bound_data, CommentForm_fields in Hclean. simpl in Hclean.
    rewrite Hpost. simpl. rewrite Hu, Hmethod, Hclean. simpl.
    unfold post_comments_of. apply list_elem_of_filter. split; [done|].
    apply elem_of_map_to_list. simpl. apply lookup_insert_eq.
  - intros now request' ctx Hrender.
    by apply PostDetailView_render in Hrender as (-> & _).
Qed.

Lemma created_comment_shows_on_detail_page_witness :
  (CommentCreateView sample_models sample_db
     {| method := POST; user := Some 2; GET_page := page_absent;
        POST_data := <["text" := "hey"]> ∅ |} 1).1
  = redirect (blog_post_detail 1).
Proof.
  refine (proj1 (created_comment_shows_on_detail_page sample_models sample_db
           {| method := POST; user := Some 2; GET_page := page_absent;
              POST_data := <["text" := "hey"]> ∅ |}
           2 1 (sample_post 100 1 1 true) "hey" eq_refl eq_refl eq_refl _)).
  vm_compute. reflexivity.
Defined.

(** The post just stored is on the page its author is sent to: after a
    valid post-creation POST by the user [u], when the username of [u]
    finds [u], the profile of that username lists the new post on the page
    of some page number, to every viewer and whatever its date and
    category. *)
Theorem created_post_shows_on_profile M db request u usr cleaned :
  method request = POST →
  user request = Some u →
  get_user_by_username db (username usr) = Return (u, usr) →
  PostForm_clean M db (bound_data PostForm_fields (POST_data request)) = Some cleaned →
  let after := (PostCreateView M db request).2 in
  (PostCreateView M db request).1 = redirect (blog_profile (username usr))
  ∧ ∀ viewer, method viewer = GET →
    ∃ (n : Z) page_obj r,
      UserDetailView after (with_page viewer n) (username usr)
      = render (profile_html u page_obj (user viewer))
      ∧ r ∈ object_list page_obj
      ∧ posts db !! pk r = None
      ∧ author (fields r) = u
      ∧ title (fields r) = cleaned_title cleaned
      ∧ pub_date (fields r) = cleaned_pub_date cleaned.
Proof.
  intros Hmethod Hu Hku Hclean. cbv zeta.
  pose proof (get_user_by_username_Return _ _ _ _ Hku) as [Husr _].
  unfold PostCreateView, LoginRequiredMixin_dispatch, PostCreateView_form_valid.
  rewrite Hu, Hmethod, Hclean, Husr. simpl. split; [done|].
  intros viewer Hviewer.
  set (k := fresh (dom (posts db))).
  set (new := {| title := cleaned_title cleaned; post_text := cleaned_text cleaned;
                 pub_date := cleaned_pub_date cleaned;
                 category := cleaned_category cleaned;
                 location := cleaned_location cleaned; image := cleaned_image cleaned;
                 author := u; is_published := Post_is_published_default M |}).
  set (after := set_posts db (<[k := new]> (posts db))).
  assert (get_user_by_username after (username usr) = Return (u, usr)) as Hafter
    by exact Hku.
  set (qs := annotate_comment_count after (order_by_pub_date_desc (user_posts after u))).
  set (r := {| pk := k; fields := new;
               comment_count := Some (Count_comments after k) |}).
  assert (r ∈ qs) as Hr.
  { unfold qs. apply elem_of_annotate.
    exists {| pk := k; fields := new; comment_count := None |}.
    rewrite elem_of_order_by, elem_of_user_posts. simpl.
    by rewrite lookup_insert_eq. }
  destruct (queryset_row_on_some_page qs r Hr) as (n & Hn & Hin).
  exists n. eexists. exists r.
  split; [exact (UserDetailView_page after viewer (username usr) (u, usr) n
                   Hviewer Hafter Hn)|].
  split; [exact Hin|]. simpl. split; [apply fresh_key_unused|done].
Qed.

Lemma created_post_shows_on_profile_witness :
  (PostCreateView sample_models sample_db
     {| method := POST; user := Some 2; GET_page := page_absent;
        POST_data := <["title" := "a"]> (<["text" := "b"]> ∅) |}).1
  = redirect (blog_profile "bob").
Proof.
  refine (proj1 (created_post_shows_on_profile sample_models sample_db
           {| method := POST; user := Some 2; GET_page := page_absent;
              POST_data := <["title" := "a"]> (<["text" := "b"]> ∅) |}
           2 (sample_user "bob")
           {| cleaned_title := "a"; cleaned_text := "b"; cleaned_pub_date := 0;
              cleaned_category := 1; cleaned_location := None; cleaned_image := "" |}
           eq_refl eq_refl _ _)).
  - vm_compute. reflexivity.
  - vm_compute. reflexivity.
Defined.

(** ** Comments on posts that are not visible *)



Lemma anonymous_sent_to_login_witness :
  CommentDeleteView sample_db (sample_request POST None) 1
  = (redirect login_url, sample_db)
  ∧ CommentCreateView sample_models sample_db (sample_request POST None) 1
    = (redirect login_url, sample_db).
Proof.
  pose proof (anonymous_sent_to_login sample_models sample_db
                (sample_request POST None) eq_refl) as (_ & Hcomment & Hcreate).
  split.
  - apply Hcomment.
  - apply Hcreate. eexists. reflexivity.
Defined.

Lemma update_views_keep_ownership_witness :
  author <$> posts (PostUpdateView sample_models sample_db
                      {| method := POST; user := Some 1; GET_page := page_absent;
                         POST_data := <["title" := "a"]> (<["text" := "b"]> ∅) |}
                      1).2 !! 1
  = author <$> posts sample_db !! 1
  ∧ posts (PostUpdateView sample_models sample_db
             {| method := POST; user := Some 1; GET_page := page_absent;
                POST_data := <["title" := "a"]> (<["text" := "b"]> ∅) |} 1).2 !! 2
    = posts sample_db !! 2.
Proof.
  pose proof (update_views_keep_ownership sample_models sample_db
                {| method := POST; user := Some 1; GET_page := page_absent;
                   POST_data := <["title" := "a"]> (<["text" := "b"]> ∅) |} 1 1)
    as [(_ & _ & _ & Hothers & Hauthor & _) _].
  split.
  - exact Hauthor.
  - apply Hothers. lia.
Defined.
